(** * OpenRelik API client: token-refreshing session, chunked upload, workflows

    A shallow embedding of [openrelik_api_client/api_client.py] and
    [openrelik_api_client/workflows.py].  Python objects become records,
    the mutable session headers and the remote server become explicit state,
    exceptions become a [Raise] result, and every call that reaches the
    network is recorded in a tree-shaped event log. *)

From Stdlib Require Import ZArith Lia.
From Stdlib.Strings Require Import Byte Ascii.
From stdpp Require Import gmap strings list pretty.

Set Warnings "-register-all".
Local Open Scope Z_scope.

(** ** Python values and exceptions *)

(** The JSON-shaped Python values that flow through the client: what
    [response.json()] yields and what is stored in the session headers. *)
Inductive PyVal :=
| PNone
| PBool (b : bool)
| PInt (z : Z)
| PStr (s : string)
| PList (l : list PyVal)
| PDict (d : list (string * PyVal)).

(** The exceptions that the modelled code raises or lets through.
    [ConnectionError], [HTTPError] and [JSONDecodeError] are the subclasses
    of [requests.exceptions.RequestException] that occur here (the last one
    as raised by [Response.json] since requests 2.27);
    [TokenRefreshFailed] is the plain [Exception("Token refresh failed")];
    [RecursionError] is what the interpreter raises when the call stack is
    exhausted (the fuel of [request] below). *)
Inductive exn :=
| ConnectionError (msg : string)
| HTTPError (status : Z)
| JSONDecodeError
| TokenRefreshFailed
| FileNotFoundError (msg : string)
| RuntimeError (msg : string)
| AttributeError
| RecursionError.

(** [except RequestException] catches exactly these. *)
Definition is_RequestException (e : exn) : bool :=
  match e with
  | ConnectionError _ | HTTPError _ | JSONDecodeError => true
  | _ => false
  end.

Inductive Result (A : Type) :=
| Return (a : A)
| Raise (e : exn).
Arguments Return {A} a.
Arguments Raise {A} e.

(** ** Requests and responses *)

(** The body passed as [data=]: raw bytes, or the multipart form built by
    [MultipartEncoder({"file": (name, chunk, content_type)})]. *)
Inductive Body :=
| RawBytes (b : list byte)
| MultipartFile (filename : string) (chunk : list byte) (content_type : string).

(** The keyword arguments ([**kwargs]) of a session request, restricted to
    the keys this client uses. *)
Record Options := {
  kw_headers : list (string * string);
  kw_data : option Body;
  kw_params : list (string * string);
  kw_json : option PyVal;
  kw_allow_redirects : option bool
}.

Definition no_options : Options :=
  {| kw_headers := []; kw_data := None; kw_params := []; kw_json := None;
     kw_allow_redirects := None |}.

(** A [requests.Response]: the status code and the result of [.json()]
    ([None] when the body is not valid JSON). *)
Record Response := {
  status_code : Z;
  json_body : option PyVal
}.

(** [Response.ok], which is also [Response.__bool__]: no 4xx/5xx status. *)
Definition ok (r : Response) : bool :=
  negb ((400 <=? status_code r) && (status_code r <? 600)).

(** ** The session object and the event log *)

Record TokenRefreshSession := {
  api_server_url : string;
  headers : gmap string PyVal
}.

(** [TokenRefreshSession.__init__]: the refresh token becomes a fixed header
    when [api_key] is truthy (a non-empty string). *)
Definition new_session (url : string) (api_key : option string) : TokenRefreshSession :=
  {| api_server_url := url;
     headers := match api_key with
                | Some k => if decide (k = "") then ∅
                            else {[ "x-openrelik-refresh-token" := PStr k ]}
                | None => ∅
                end |}.

(** What happened during a call, as a tree; every node carries the outcome
    of the call it stands for:
    - [Wire]: one call of [super().request], i.e. one HTTP exchange, with
      the session headers in force when it was made;
    - [Refresh]: one execution of [_refresh_token], with its own events;
    - [Request]: one execution of [TokenRefreshSession.request], with its
      own events;
    - [Printed]: the message written by [print] when a refresh fails. *)
Inductive event :=
| Wire (method url : string) (kw : Options) (hdrs : gmap string PyVal)
       (res : Result Response)
| Refresh (inner : list event) (res : Result bool)
| Request (method url : string) (kw : Options) (inner : list event)
          (res : Result Response)
| Printed (e : exn).

(** All HTTP exchanges of an event, in order, at any depth. *)
Fixpoint wire_requests (ev : event) : list (string * string * Options) :=
  match ev with
  | Wire m u kw _ _ => [(m, u, kw)]
  | Refresh inner _ => flat_map wire_requests inner
  | Request _ _ _ inner _ => flat_map wire_requests inner
  | Printed _ => []
  end.

Definition all_wire_requests (log : list event) : list (string * string * Options) :=
  flat_map wire_requests log.

(** All executions of the refresh step recorded in an event, at any depth. *)
Fixpoint refresh_steps (ev : event) : nat :=
  match ev with
  | Wire _ _ _ _ _ => 0
  | Refresh inner _ => S (foldr (fun e n => refresh_steps e + n) 0 inner)
  | Request _ _ _ inner _ => foldr (fun e n => refresh_steps e + n) 0 inner
  | Printed _ => 0
  end%nat.

Definition is_refresh (ev : event) : bool :=
  match ev with Refresh _ _ => true | _ => false end.

(** The keyword arguments of the [POST] requests made directly at this level
    of a log. *)
Definition post_options (ev : event) : option Options :=
  match ev with
  | Request m _ kw _ _ => if decide (m = "POST") then Some kw else None
  | _ => None
  end.

Definition chunk_posts (log : list event) : list Options := omap post_options log.

Fixpoint params_get (key : string) (params : list (string * string)) : option string :=
  match params with
  | [] => None
  | (k, v) :: params' => if decide (k = key) then Some v else params_get key params'
  end.

Definition param (key : string) (kw : Options) : option string :=
  params_get key (kw_params kw).

(** The bytes of the file part of a multipart body. *)
Definition chunk_bytes (kw : Options) : list byte :=
  match kw_data kw with
  | Some (MultipartFile _ chunk _) => chunk
  | Some (RawBytes b) => b
  | None => []
  end.

(** ** Numbers, paths and files as Python sees them *)

(** [str(n)] for an [int]. *)
Definition str (z : Z) : string := pretty z.

(** A binary64 value [mant * 2 ^ expo], as produced by the division below. *)
Record float := { mant : Z; expo : Z }.

(** The integer nearest to [n / d], ties to even ([0 <= n], [0 < d]). *)
Definition round_half_even (n d : Z) : Z :=
  let q := n / d in
  let r := n mod d in
  if 2 * r <? d then q
  else if d <? 2 * r then q + 1
  else if Z.even q then q else q + 1.

(** [floor (log2 (n / d))] for [0 < n] and [0 < d]. *)
Definition quotient_exponent (n d : Z) : Z :=
  let l := Z.log2 n - Z.log2 d in
  let below := if 0 <=? l then n <? d * 2 ^ l else n * 2 ^ (- l) <? d in
  if below then l - 1 else l.

(** [n / d] on two [int]s, [0 <= n] and [0 < d]: Python's true division,
    which yields the binary64 value nearest to the exact quotient (53
    significant bits, ties to even).  The exponent is left unbounded: for a
    file size below [2 ^ 63] and the chunk size used here the quotient is far
    inside the normal range of binary64. *)
Definition int_true_div (n d : Z) : float :=
  if n =? 0 then {| mant := 0; expo := 0 |}
  else
    let e := quotient_exponent n d - 52 in
    {| mant := if 0 <=? e then round_half_even n (d * 2 ^ e)
               else round_half_even (n * 2 ^ (- e)) d;
       expo := e |}.

(** [math.ceil(x)]. *)
Definition math_ceil (x : float) : Z :=
  if 0 <=? expo x then mant x * 2 ^ expo x
  else - ((- mant x) / 2 ^ (- expo x)).

(** The exact ceiling of [n / d], for comparison. *)
Definition ceil_div (n d : Z) : Z := (n + d - 1) / d.

(** [Path(p).name]: the last component of the path. *)
Fixpoint split_slash (s cur : string) : list string :=
  match s with
  | EmptyString => [cur]
  | String c s' =>
      if Ascii.eqb c "/"%char then cur :: split_slash s' ""
      else split_slash s' (cur +:+ String c "")
  end.

Definition path_name (p : string) : string :=
  default "" (last (filter (fun c => c ≠ "" ∧ c ≠ ".") (split_slash p ""))).

(** The local file system: the regular files, by path as [Path] prints
    it. *)
Definition FileSystem := gmap string (list byte).

(** [fh.read(n)] on a binary file whose unread part is [rest]: the bytes
    read and the new unread part. *)
Definition fh_read (n : Z) (rest : list byte) : list byte * list byte :=
  (take (Z.to_nat n) rest, drop (Z.to_nat n) rest).

(** The random values drawn during one upload: [uuid4().hex] for the upload
    identifier, and the multipart boundary of the encoder built for each
    chunk. *)
Record Entropy := {
  upload_uuid : string;
  boundary : Z -> string
}.

(** [MultipartEncoder.content_type]. *)
Definition multipart_content_type (b : string) : string :=
  "multipart/form-data; boundary=" +:+ b.

(** [folder_id]: an [int], or [None]. *)
Definition truthy (folder_id : option Z) : bool :=
  match folder_id with
  | Some z => negb (z =? 0)
  | None => false
  end.

Definition str_opt (folder_id : option Z) : string :=
  match folder_id with
  | Some z => str z
  | None => "None"
  end.

Record APIClient := { base_url : string }.

(** [APIClient.__init__]: the client and the session it creates. *)
Definition new_client (url : string) (api_key : option string) (api_version : string)
  : APIClient * TokenRefreshSession :=
  ({| base_url := url +:+ "/api/" +:+ api_version |}, new_session url api_key).

Definition chunk_size : Z := 1024000.

(** The [params] dictionary and the keyword arguments of one chunk request. *)
Definition chunk_params (number total : Z) (identifier filename : string)
    (folder_id : option Z) : list (string * string) :=
  [ ("resumableChunkNumber", str number);
    ("resumableTotalChunks", str total);
    ("resumableIdentifier", identifier);
    ("resumableFilename", filename);
    ("folder_id", str_opt folder_id) ].

(** [d.get(key)] on a dictionary: [None] when the key is absent. *)
Fixpoint assoc_get (d : list (string * PyVal)) (key : string) : PyVal :=
  match d with
  | [] => PNone
  | (k, v) :: d' => if decide (k = key) then v else assoc_get d' key
  end.

(** The bytes returned by the [i]-th read (from 0) of a file. *)
Definition nth_chunk (data : list byte) (i : nat) : list byte :=
  take (Z.to_nat chunk_size) (drop (i * Z.to_nat chunk_size) data).

(** [response.json().get(key)] as a value or the exception it raises. *)
Definition json_field (r : Response) (key : string) : Result PyVal :=
  match json_body r with
  | Some (PDict d) => Return (assoc_get d key)
  | Some _ => Raise AttributeError
  | None => Raise JSONDecodeError
  end.

(** The folder check answered "not found": [response.status_code == 404]
    inside [if folder_id:]. *)
Definition folder_missing (response : option Response) : bool :=
  match response with
  | Some r => status_code r =? 404
  | None => false
  end.

(** The test after the loop: [response and response.status_code == 201],
    where the truth value of a response is [ok]. *)
Definition final_check (response : option Response) : bool :=
  match response with
  | Some r => ok r && (status_code r =? 201)
  | None => false
  end.

(** What [upload_file] yields once the loop is over, from the value left in
    [response]. *)
Definition file_id_value (response : option Response) : Result PyVal :=
  match response with
  | Some r => if final_check response then json_field r "id"
              else Return (PInt (-1))
  | None => Return (PInt (-1))
  end.

Definition chunk_options (rnd : Entropy) (filename : string) (folder_id : option Z)
    (total number : Z) (chunk : list byte) : Options :=
  let params := chunk_params number total (upload_uuid rnd) filename folder_id in
  let encoder := MultipartFile filename chunk "application/octet-stream" in
  let headers := [("Content-Type", multipart_content_type (boundary rnd number))] in
  {| kw_headers := headers; kw_data := Some encoder; kw_params := params;
     kw_json := None; kw_allow_redirects := None |}.

Section Client.

(** The remote server and the network, as seen through the base class
    [requests.Session.request]: a state [World] and a function giving, for
    the session (whose headers the base class merges into the request) and
    the request arguments, either a response or a raised exception. *)
Variable World : Type.
Variable super_request_io :
  World -> TokenRefreshSession -> string -> string -> Options ->
  Result Response * World.

Record State := {
  session : TokenRefreshSession;
  world : World
}.

(** Computations: state passing, exceptions, and an event log. *)
Definition M (A : Type) : Type := State -> Result A * State * list event.

Definition ret {A} (a : A) : M A := fun s => (Return a, s, []).
Definition raise {A} (e : exn) : M A := fun s => (Raise e, s, []).
Definition bind {A B} (c : M A) (k : A -> M B) : M B := fun s =>
  match c s with
  | (Return a, s1, l1) => let '(r, s2, l2) := k a s1 in (r, s2, l1 ++ l2)
  | (Raise e, s1, l1) => (Raise e, s1, l1)
  end.

(** [try: c except <handles>: h]. *)
Definition try_except {A} (c : M A) (handles : exn -> bool) (h : exn -> M A) : M A :=
  fun s =>
    match c s with
    | (Raise e, s1, l1) =>
        if handles e then let '(r, s2, l2) := h e s1 in (r, s2, l1 ++ l2)
        else (Raise e, s1, l1)
    | res => res
    end.

(** Runs [c] and files its events under one node of the log. *)
Definition scoped {A} (node : list event -> Result A -> event) (c : M A) : M A :=
  fun s => let '(r, s1, l) := c s in (r, s1, [node l r]).

Definition emit (ev : event) : M unit := fun s => (Return tt, s, [ev]).

Notation "x <- c ;; k" := (bind c (fun x => k))
  (at level 100, c at next level, right associativity).

(** *** [requests] primitives *)

(** [super().request(method, url, **kwargs)]: one HTTP exchange. *)
Definition super_request (method url : string) (kw : Options) : M Response :=
  fun s =>
    let '(r, w) := super_request_io (world s) (session s) method url kw in
    (r, {| session := session s; world := w |},
     [Wire method url kw (headers (session s)) r]).

(** [response.raise_for_status()]: [HTTPError] on a 4xx or 5xx status. *)
Definition raise_for_status (r : Response) : M unit :=
  if ok r then ret tt else raise (HTTPError (status_code r)).

(** [response.json()]. *)
Definition response_json (r : Response) : M PyVal :=
  match json_body r with
  | Some v => ret v
  | None => raise JSONDecodeError
  end.

(** [v.get(key)]: defined on dictionaries only. *)
Definition py_get (v : PyVal) (key : string) : M PyVal :=
  match v with
  | PDict d => ret (assoc_get d key)
  | _ => raise AttributeError
  end.

(** [self.headers[name] = v]. *)
Definition set_header (name : string) (v : PyVal) : M unit := fun s =>
  (Return tt,
   {| session := {| api_server_url := api_server_url (session s);
                    headers := <[name := v]> (headers (session s)) |};
      world := world s |},
   []).

(** The state after [self.headers["x-openrelik-access-token"] = tok]. *)
Definition with_access_token (tok : PyVal) (s : State) : State :=
  {| session := {| api_server_url := api_server_url (session s);
                   headers := <["x-openrelik-access-token" := tok]>
                                (headers (session s)) |};
     world := world s |}.

Definition get_api_server_url : M string := fun s =>
  (Return (api_server_url (session s)), s, []).

(** *** [TokenRefreshSession] *)

(** [_refresh_token], with the session's own [get] left open: it is bound
    to the intercepting [request] below, as method dispatch does. *)
Definition refresh_token_via (self_get : string -> M Response) : M bool :=
  scoped Refresh (
    url <- get_api_server_url ;;
    let refresh_url := url +:+ "/auth/refresh" in
    try_except
      (response <- self_get refresh_url ;;
       _ <- raise_for_status response ;;
       body <- response_json response ;;
       new_access_token <- py_get body "new_access_token" ;;
       _ <- set_header "x-openrelik-access-token" new_access_token ;;
       ret true)
      is_RequestException
      (fun e => _ <- emit (Printed e) ;; ret false)).

(** [Session.get(url)]: [self.request("GET", url, allow_redirects=True)]. *)
Definition get_options : Options :=
  {| kw_headers := []; kw_data := None; kw_params := []; kw_json := None;
     kw_allow_redirects := Some true |}.

(** [TokenRefreshSession.request].  [fuel] bounds the depth of nested
    calls; at depth zero the call fails with [RecursionError]. *)
Fixpoint request (fuel : nat) (method url : string) (kw : Options) : M Response :=
  match fuel with
  | O => raise RecursionError
  | S fuel' =>
      scoped (Request method url kw) (
        response <- super_request method url kw ;;
        if status_code response =? 401 then
          refreshed <- refresh_token_via (fun u => request fuel' "GET" u get_options) ;;
          if refreshed : bool then super_request method url kw
          else raise TokenRefreshFailed
        else ret response)
  end.

Definition session_get (fuel : nat) (url : string) : M Response :=
  request fuel "GET" url get_options.

Definition _refresh_token (fuel : nat) : M bool :=
  refresh_token_via (session_get fuel).

(** [Session.post(url, data=None, json=None, **kwargs)]. *)
Definition session_post (fuel : nat) (url : string) (kw : Options) : M Response :=
  request fuel "POST" url kw.

(** *** [APIClient.upload_file] *)

(** The [if folder_id:] block: the response it leaves in [response], or
    [Raise] when the request does. *)
Definition folder_check (fuel : nat) (self : APIClient) (folder_id : option Z)
  : M (option Response) :=
  if truthy folder_id then
    response <- session_get fuel (base_url self +:+ "/folders/" +:+ str_opt folder_id) ;;
    ret (Some response)
  else ret None.

(** The [while chunk := fh.read(chunk_size)] loop.  [steps] bounds the
    number of reads and is more than the unread bytes whenever the loop is
    entered; [rest] is the unread part of the file. *)
Fixpoint upload_loop (steps fuel : nat) (self : APIClient) (rnd : Entropy)
    (filename : string) (folder_id : option Z) (total : Z)
    (rest : list byte) (resumableChunkNumber : Z) (response : option Response)
  : M (option Response) :=
  match steps with
  | O => ret response
  | S steps' =>
      let '(chunk, rest') := fh_read chunk_size rest in
      match chunk with
      | [] => ret response
      | _ :: _ =>
          let resumableChunkNumber := resumableChunkNumber + 1 in
          r <- session_post fuel (base_url self +:+ "/files/upload")
                 (chunk_options rnd filename folder_id total
                    resumableChunkNumber chunk) ;;
          upload_loop steps' fuel self rnd filename folder_id total rest'
            resumableChunkNumber (Some r)
      end
  end.

Definition file_id_of (response : option Response) : M PyVal :=
  match response with
  | Some r =>
      if final_check response then
        body <- response_json r ;; py_get body "id"
      else ret (PInt (-1))
  | None => ret (PInt (-1))
  end.

Definition upload_file (fuel : nat) (self : APIClient) (fs : FileSystem)
    (rnd : Entropy) (file_path : string) (folder_id : option Z) : M PyVal :=
  let resumableFilename := path_name file_path in
  match fs !! file_path with
  | None => raise (FileNotFoundError ("File " +:+ file_path +:+ " not found."))
  | Some data =>
      response <- folder_check fuel self folder_id ;;
      if folder_missing response then ret (PInt (-1))
      else
        let total_size := Z.of_nat (length data) in
        let resumableTotalChunks := math_ceil (int_true_div total_size chunk_size) in
        response <- upload_loop (S (length data)) fuel self rnd resumableFilename
                      folder_id resumableTotalChunks data 0 response ;;
        file_id_of response
  end.

(** *** [WorkflowsAPI] *)

(** [Session.patch(url, data=None, **kwargs)] and
    [Session.delete(url, **kwargs)]. *)
Definition session_patch (fuel : nat) (url : string) (kw : Options) : M Response :=
  request fuel "PATCH" url kw.

Definition session_delete (fuel : nat) (url : string) : M Response :=
  request fuel "DELETE" url no_options.

Definition json_options (v : PyVal) : Options :=
  {| kw_headers := []; kw_data := None; kw_params := []; kw_json := Some v;
     kw_allow_redirects := None |}.

Definition workflow_endpoint (self : APIClient) (folder_id workflow_id : Z) : string :=
  base_url self +:+ "/folders/" +:+ str folder_id +:+ "/workflows/" +:+ str workflow_id.

Definition create_workflow (fuel : nat) (self : APIClient) (folder_id : Z)
    (file_ids : list Z) (template_id : option Z) : M PyVal :=
  let endpoint := base_url self +:+ "/folders/" +:+ str folder_id +:+ "/workflows" in
  let data := PDict [ ("folder_id", PInt folder_id);
                      ("file_ids", PList (PInt <$> file_ids));
                      ("template_id", from_option PInt PNone template_id) ] in
  response <- session_post fuel endpoint (json_options data) ;;
  if status_code response =? 200 then
    body <- response_json response ;; py_get body "id"
  else raise (RuntimeError "Error creating workflow.").

(** Falls off the end, returning [None], when the status is not 200. *)
Definition get_workflow (fuel : nat) (self : APIClient) (folder_id workflow_id : Z)
  : M PyVal :=
  let endpoint := workflow_endpoint self folder_id workflow_id in
  response <- session_get fuel endpoint ;;
  if status_code response =? 200 then response_json response
  else ret PNone.

Definition update_workflow (fuel : nat) (self : APIClient) (folder_id workflow_id : Z)
    (workflow_data : PyVal) : M PyVal :=
  let endpoint := workflow_endpoint self folder_id workflow_id in
  response <- session_patch fuel endpoint (json_options workflow_data) ;;
  if status_code response =? 200 then response_json response
  else raise (RuntimeError "Error updating workflow.").

Definition delete_workflow (fuel : nat) (self : APIClient) (folder_id workflow_id : Z)
  : M bool :=
  let endpoint := workflow_endpoint self folder_id workflow_id in
  response <- session_delete fuel endpoint ;;
  ret (status_code response =? 204).

Definition run_workflow (fuel : nat) (self : APIClient) (folder_id workflow_id : Z)
  : M PyVal :=
  let endpoint := workflow_endpoint self folder_id workflow_id +:+ "/run" in
  response <- session_post fuel endpoint no_options ;;
  if status_code response =? 200 then response_json response
  else raise (RuntimeError "Error running workflow.").

End Client.

Arguments session {World}.
Arguments world {World}.
Arguments Build_State {World}.
Arguments with_access_token {World}.

(** ** Concrete servers *)

(** A server that plays back a fixed list of outcomes, one per HTTP
    exchange, and fails with a connection error once the list is used up. *)
Definition scripted (w : list (Result Response)) (_ : TokenRefreshSession)
    (_ _ : string) (_ : Options) : Result Response * list (Result Response) :=
  match w with
  | r :: w' => (r, w')
  | [] => (Raise (ConnectionError "connection refused"), [])
  end.

(** A server that answers every request with the same response. *)
Definition constant_server (r : Response) (w : unit) (_ : TokenRefreshSession)
    (_ _ : string) (_ : Options) : Result Response * unit :=
  (Return r, w).

Definition status_only (status : Z) : Response :=
  {| status_code := status; json_body := None |}.

Definition with_json (status : Z) (v : PyVal) : Response :=
  {| status_code := status; json_body := Some v |}.

(** The bodies the OpenRelik server sends on a created file and on a
    refreshed token. *)
Definition created (id : Z) : Response := with_json 201 (PDict [("id", PInt id)]).

Definition fresh_token (tok : string) : Response :=
  with_json 200 (PDict [("new_access_token", PStr tok)]).

(** A server on which every access token has expired: it answers 401 to
    everything but the refresh request of the session's own server, for
    which it hands out a token. *)
Definition expired_server (w : unit) (ses : TokenRefreshSession) (_ u : string)
    (_ : Options) : Result Response * unit :=
  if decide (u = api_server_url ses +:+ "/auth/refresh")
  then (Return (fresh_token "t2"), w)
  else (Return (status_only 401), w).

(** A client for the examples below. *)
Definition demo_client : APIClient :=
  (new_client "https://relik.example" (Some "refresh-key") "v1").1.

Definition demo_session : TokenRefreshSession :=
  (new_client "https://relik.example" (Some "refresh-key") "v1").2.

Definition demo_entropy : Entropy :=
  {| upload_uuid := "0123456789abcdef0123456789abcdef";
     boundary := fun i => "boundary" +:+ str i |}.

Definition demo_state {World : Type} (w : World) : State World :=
  Build_State demo_session w.

Definition demo_fs : FileSystem :=
  {[ "/cases/disk.img" := ["001"; "002"; "003"]%byte ]}.

(** ** [FoldersAPI] *)

Section Folders.

Variable World : Type.
Variable super_request_io :
  World -> TokenRefreshSession -> string -> string -> Options ->
  Result Response * World.

Notation "x <- c ;; k" := (bind World c (fun x => k))
  (at level 100, c at next level, right associativity).

(** [FoldersAPI.create_root_folder].  The method starts by storing the URL
    in the attribute [self.endpoint], whatever happens afterwards: the
    first component is the value this attribute holds from then on, the
    second is the rest of the call. *)
Definition create_root_folder (fuel : nat) (self : APIClient) (display_name : string)
  : string * M World PyVal :=
  let endpoint := base_url self +:+ "/folders/" in
  let params := PDict [("display_name", PStr display_name)] in
  (endpoint,
   response <- session_post World super_request_io fuel endpoint (json_options params) ;;
   if status_code response =? 201 then
     body <- response_json World response ;; py_get World body "id"
   else raise World (RuntimeError "Error creating root folder.")).

(** [FoldersAPI.create_subfolder]. *)
Definition create_subfolder (fuel : nat) (self : APIClient) (folder_id : Z)
    (display_name : string) : M World PyVal :=
  let endpoint := base_url self +:+ "/folders/" +:+ str folder_id +:+ "/folders" in
  let data := PDict [("display_name", PStr display_name)] in
  response <- session_post World super_request_io fuel endpoint (json_options data) ;;
  if status_code response =? 201 then
    body <- response_json World response ;; py_get World body "id"
  else raise World (RuntimeError "Error creating subfolder.").

(** [FoldersAPI.folder_exists]. *)
Definition folder_exists (fuel : nat) (self : APIClient) (folder_id : Z)
  : M World bool :=
  let endpoint := base_url self +:+ "/folders/" +:+ str folder_id in
  response <- session_get World super_request_io fuel endpoint ;;
  ret World (status_code response =? 200).

End Folders.

(** ** Readings of states and logs *)

(** The session keeps its server URL and every header but the access
    token. *)
Definition same_credentials (a b : TokenRefreshSession) : Prop :=
  api_server_url a = api_server_url b ∧
  ∀ name, name ≠ "x-openrelik-access-token" → headers a !! name = headers b !! name.

(** The exchange a refresh step makes on a session. *)
Definition refresh_exchange (ses : TokenRefreshSession) : string * string * Options :=
  ("GET", api_server_url ses +:+ "/auth/refresh", get_options).

(** The session headers in force at each HTTP exchange of an event, in
    order, at any depth. *)
Fixpoint wire_headers (ev : event) : list (gmap string PyVal) :=
  match ev with
  | Wire _ _ _ h _ => [h]
  | Refresh inner _ => flat_map wire_headers inner
  | Request _ _ _ inner _ => flat_map wire_headers inner
  | Printed _ => []
  end.

Definition all_wire_headers (log : list event) : list (gmap string PyVal) :=
  flat_map wire_headers log.

(** Headers that agree on every name but the access token. *)
Definition same_fixed_headers (h h' : gmap string PyVal) : Prop :=
  ∀ name, name ≠ "x-openrelik-access-token" → h !! name = h' !! name.

(** The [POST] exchanges of a wire log. *)
Definition is_post (x : string * string * Options) : bool :=
  if decide (x.1.1 = "POST") then true else false.

Definition post_exchanges (log : list event) : list (string * string * Options) :=
  List.filter is_post (all_wire_requests log).

(** ** Facts about the session *)

Section SessionFacts.

Context {World : Type}.
Variable io :
  World -> TokenRefreshSession -> string -> string -> Options ->
  Result Response * World.

(** One execution of [request] with fuel left, case by case. *)
Lemma request_run (fuel : nat) (m u : string) (kw : Options) (s : State World) :
  request World io (S fuel) m u kw s =
  let '(r1, w1) := io (world s) (session s) m u kw in
  let s1 := Build_State (session s) w1 in
  let ev1 := Wire m u kw (headers (session s)) r1 in
  match r1 with
  | Raise e => (Raise e, s1, [Request m u kw [ev1] (Raise e)])
  | Return resp =>
      if status_code resp =? 401 then
        let '(rb, s2, l2) := _refresh_token World io fuel s1 in
        match rb with
        | Return true =>
            let '(r3, w3) := io (world s2) (session s2) m u kw in
            (r3, Build_State (session s2) w3,
             [Request m u kw
                (ev1 :: l2 ++ [Wire m u kw (headers (session s2)) r3]) r3])
        | Return false =>
            (Raise TokenRefreshFailed, s2,
             [Request m u kw (ev1 :: l2) (Raise TokenRefreshFailed)])
        | Raise e => (Raise e, s2, [Request m u kw (ev1 :: l2) (Raise e)])
        end
      else (Return resp, s1, [Request m u kw [ev1] (Return resp)])
  end.
Proof.
  cbn [request]. unfold scoped, bind, super_request at 1.
  destruct (io (world s) (session s) m u kw) as [[resp|e] w1]; [|done].
  destruct (status_code resp =? 401); [|done].
  fold (session_get World io fuel). fold (_refresh_token World io fuel).
  destruct (_refresh_token World io fuel _) as [[[[|]|e] s2] l2]; cbn.
  - unfold super_request.
    destruct (io (world s2) (session s2) m u kw) as [r3 w3]; done.
  - unfold raise. by rewrite app_nil_r.
  - done.
Qed.

(** One execution of [_refresh_token], by the outcome of its [self.get]. *)
Lemma refresh_run (fuel : nat) (s : State World) :
  _refresh_token World io fuel s =
  let '(r, s1, l1) :=
    session_get World io fuel (api_server_url (session s) +:+ "/auth/refresh") s in
  match r with
  | Return resp =>
      if ok resp then
        match json_body resp with
        | Some (PDict d) =>
            (Return true, with_access_token (assoc_get d "new_access_token") s1,
             [Refresh l1 (Return true)])
        | Some _ => (Raise AttributeError, s1, [Refresh l1 (Raise AttributeError)])
        | None =>
            (Return false, s1,
             [Refresh (l1 ++ [Printed JSONDecodeError]) (Return false)])
        end
      else
        (Return false, s1,
         [Refresh (l1 ++ [Printed (HTTPError (status_code resp))]) (Return false)])
  | Raise e =>
      if is_RequestException e then
        (Return false, s1, [Refresh (l1 ++ [Printed e]) (Return false)])
      else (Raise e, s1, [Refresh l1 (Raise e)])
  end.
Proof.
  unfold _refresh_token, refresh_token_via, scoped, bind at 1, get_api_server_url.
  cbn [app]. unfold try_except, bind at 1.
  destruct (session_get World io fuel _ s) as [[[resp|e] s1] l1].
  - unfold bind at 1, raise_for_status.
    destruct (ok resp); cbn; [|by rewrite ?app_nil_r].
    unfold bind at 1, response_json.
    destruct (json_body resp) as [v|]; cbn; [|by rewrite ?app_nil_r].
    destruct v; cbn; rewrite ?app_nil_r; done.
  - destruct (is_RequestException e); cbn; done.
Qed.

(** The log of a refresh step is a single [Refresh] node carrying its
    outcome. *)
Lemma refresh_log (fuel : nat) (s : State World) :
  ∃ body, (_refresh_token World io fuel s).2
          = [Refresh body (_refresh_token World io fuel s).1.1].
Proof.
  unfold _refresh_token, refresh_token_via, scoped.
  destruct (bind _ _ _ s) as [[r s1] l]. cbn. eauto.
Qed.

(** A refresh step whose [GET] is not answered 401 is a single refresh step
    with a single exchange. *)
Lemma refresh_direct (fuel : nat) (s : State World) (r0 : Result Response)
    (w1 : World) :
  let url := api_server_url (session s) +:+ "/auth/refresh" in
  io (world s) (session s) "GET" url get_options = (r0, w1) →
  (∀ resp, r0 = Return resp → status_code resp ≠ 401) →
  ∃ rb s2 body,
    _refresh_token World io (S fuel) s = (rb, s2, [Refresh body rb]) ∧
    refresh_steps (Refresh body rb) = 1%nat ∧
    all_wire_requests body = [("GET", url, get_options)].
Proof.
  intros url Hio Hno. rewrite refresh_run. unfold session_get. fold url.
  rewrite request_run, Hio. cbn zeta.
  destruct r0 as [resp|e].
  - destruct (Z.eqb_spec (status_code resp) 401) as [H401|_];
      [by destruct (Hno resp)|].
    destruct (ok resp); [destruct (json_body resp) as [[]|]|];
      eexists _, _, _; (split; [reflexivity|]); split; reflexivity.
  - destruct (is_RequestException e);
      eexists _, _, _; (split; [reflexivity|]); split; reflexivity.
Qed.

(** A request made with [method] only ever puts [method] and the [GET]s of
    the refresh step on the wire. *)
Lemma request_wire_methods (fuel : nat) (m u : string) (kw : Options) (s : State World) :
  Forall (fun x => x.1.1 = m ∨ x.1.1 = "GET")
         (all_wire_requests (request World io fuel m u kw s).2).
Proof.
  revert m u kw s. induction fuel as [|fuel IH]; intros m u kw s; [by constructor|].
  rewrite request_run.
  destruct (io (world s) (session s) m u kw) as [[resp|e] w1]; cbn zeta.
  2: { cbn. repeat constructor. }
  destruct (status_code resp =? 401).
  2: { cbn. repeat constructor. }
  rewrite refresh_run.
  set (s1 := Build_State (session s) w1).
  specialize (IH "GET" (api_server_url (session s1) +:+ "/auth/refresh") get_options s1).
  unfold session_get.
  destruct (request World io fuel "GET" _ get_options s1) as [[r s2] l2].
  cbn [snd] in IH.
  assert (Forall (fun x : string * string * Options => x.1.1 = m ∨ x.1.1 = "GET")
            (all_wire_requests l2)) as IH'.
  { eapply Forall_impl; [exact IH|]. cbn. intros x [H|H]; auto. }
  destruct r as [resp2|e2].
  - destruct (ok resp2); [destruct (json_body resp2) as [[]|]|].
    all: try (destruct (io _ _ m u kw) as [r3 w3]).
    all: unfold all_wire_requests in *; cbn [flat_map wire_requests snd app];
      rewrite ?app_nil_r, ?flat_map_app; cbn [flat_map wire_requests app];
      rewrite ?app_nil_r;
      repeat (apply Forall_cons; split; [by left|]);
      repeat (apply Forall_app; split); auto; repeat constructor; by left.
  - destruct (is_RequestException e2).
    all: unfold all_wire_requests in *; cbn [flat_map wire_requests snd app];
      rewrite ?app_nil_r, ?flat_map_app; cbn [flat_map wire_requests app];
      rewrite ?app_nil_r;
      repeat (apply Forall_cons; split; [by left|]);
      repeat (apply Forall_app; split); auto; repeat constructor; by left.
Qed.

End SessionFacts.

(** ** The 401 handler *)

Section Handler.

Context {World : Type}.
Variable io :
  World -> TokenRefreshSession -> string -> string -> Options ->
  Result Response * World.

(** C2.  When the first response to a request has status 401, the request
    runs the refresh step exactly once: its own events are the first
    exchange, one [Refresh] node, and a tail without further refresh
    steps.  If the refresh step returns [True], the tail is exactly one
    more exchange with the same method, URL and keyword arguments, made in
    the state the refresh left, and the outcome of that exchange, be it a
    failure status or an exception, is the outcome of the request.
    Otherwise the tail is empty.  When moreover the [GET] of the refresh
    step is not itself answered 401, there is one refresh step at any depth
    and the exchanges on the wire are the request, the refresh [GET] and,
    after a successful refresh, the request once more. *)
Theorem request_401_refreshes_once_retries_once
    (fuel : nat) (m u : string) (kw : Options) (s : State World)
    (resp : Response) (w1 : World) :
  io (world s) (session s) m u kw = (Return resp, w1) →
  status_code resp = 401 →
  ∃ rb s2 body r s' tail,
    _refresh_token World io fuel (Build_State (session s) w1)
      = (rb, s2, [Refresh body rb]) ∧
    request World io (S fuel) m u kw s
      = (r, s',
         [Request m u kw
            (Wire m u kw (headers (session s)) (Return resp)
               :: Refresh body rb :: tail) r]) ∧
    filter is_refresh tail = [] ∧
    (rb = Return true →
       ∃ r3 w3, io (world s2) (session s2) m u kw = (r3, w3) ∧
                r = r3 ∧ s' = Build_State (session s2) w3 ∧
                tail = [Wire m u kw (headers (session s2)) r3]) ∧
    (rb ≠ Return true → tail = []) ∧
    (∀ r0 w2,
       let refresh_url := api_server_url (session s) +:+ "/auth/refresh" in
       fuel ≠ 0%nat →
       io w1 (session s) "GET" refresh_url get_options = (r0, w2) →
       (∀ resp0, r0 = Return resp0 → status_code resp0 ≠ 401) →
       refresh_steps (Refresh body rb) = 1%nat ∧
       all_wire_requests (request World io (S fuel) m u kw s).2
         = (m, u, kw) :: ("GET", refresh_url, get_options)
             :: match rb with Return true => [(m, u, kw)] | _ => [] end).
Proof.
  intros Hio H401.
  destruct (refresh_log io fuel (Build_State (session s) w1)) as [body Hlog].
  rewrite request_run, Hio. cbn zeta.
  apply Z.eqb_eq in H401 as ->.
  destruct (_refresh_token World io fuel _) as [[rb s2] l2] eqn:Hrefresh.
  cbn in Hlog. subst l2.
  exists rb, s2, body.
  assert (∀ r0 w2,
            fuel ≠ 0%nat →
            io w1 (session s) "GET" (api_server_url (session s) +:+ "/auth/refresh")
              get_options = (r0, w2) →
            (∀ resp0, r0 = Return resp0 → status_code resp0 ≠ 401) →
            refresh_steps (Refresh body rb) = 1%nat ∧
            all_wire_requests body
              = [("GET", api_server_url (session s) +:+ "/auth/refresh", get_options)])
    as Hdirect.
  { intros r0 w2 Hfuel Hget Hno. destruct fuel as [|f]; [done|].
    destruct (refresh_direct io f (Build_State (session s) w1) r0 w2 Hget Hno)
      as (rb' & s2' & body' & Hrun & Hsteps & Hwire).
    rewrite Hrefresh in Hrun. by injection Hrun as <- <- <-. }
  assert (∀ tail r, all_wire_requests
                      [Request m u kw
                         (Wire m u kw (headers (session s)) (Return resp)
                            :: Refresh body rb :: tail) r]
                    = (m, u, kw) :: all_wire_requests body ++ all_wire_requests tail)
    as Hflat.
  { intros. unfold all_wire_requests. cbn. by rewrite app_nil_r. }
  destruct rb as [[|]|e].
  - destruct (io (world s2) (session s2) m u kw) as [r3 w3] eqn:Hretry.
    exists r3, (Build_State (session s2) w3), [Wire m u kw (headers (session s2)) r3].
    repeat split; try done.
    + intros _. by exists r3, w3.
    + by destruct (Hdirect r0 w2).
    + cbn [snd app]. rewrite Hflat. by destruct (Hdirect r0 w2) as [_ ->].
  - exists (Raise TokenRefreshFailed), s2, []. repeat split; try done.
    + by destruct (Hdirect r0 w2).
    + cbn [snd app]. rewrite Hflat. by destruct (Hdirect r0 w2) as [_ ->].
  - exists (Raise e), s2, []. repeat split; try done.
    + by destruct (Hdirect r0 w2).
    + cbn [snd app]. rewrite Hflat. by destruct (Hdirect r0 w2) as [_ ->].
Qed.

(** C3.  When the first response to a request has status 401 and the
    refresh step returns [False], the request raises the fatal
    [Exception("Token refresh failed")]; after the refresh step nothing
    more is sent, so the exchanges on the wire are the first one followed
    by those of the refresh step. *)
Theorem request_401_failed_refresh_raises
    (fuel : nat) (m u : string) (kw : Options) (s : State World)
    (resp : Response) (w1 : World) (s2 : State World) (l2 : list event) :
  io (world s) (session s) m u kw = (Return resp, w1) →
  status_code resp = 401 →
  _refresh_token World io fuel (Build_State (session s) w1)
    = (Return false, s2, l2) →
  request World io (S fuel) m u kw s
    = (Raise TokenRefreshFailed, s2,
       [Request m u kw (Wire m u kw (headers (session s)) (Return resp) :: l2)
          (Raise TokenRefreshFailed)]) ∧
  all_wire_requests (request World io (S fuel) m u kw s).2
    = (m, u, kw) :: all_wire_requests l2.
Proof.
  intros Hio H401 Href.
  rewrite request_run, Hio. cbn zeta.
  apply Z.eqb_eq in H401 as ->. rewrite Href.
  split; [done|]. unfold all_wire_requests. cbn. by rewrite app_nil_r.
Qed.

End Handler.

(** ** The refresh step *)

Section RefreshStep.

Context {World : Type}.
Variable io :
  World -> TokenRefreshSession -> string -> string -> Options ->
  Result Response * World.


End RefreshStep.

(** C10.  The [GET] of the refresh step goes through the intercepting
    [request], which on a 401 runs the refresh step again.  Against a server
    that answers every request, the one to [auth/refresh] included, with
    status 401, no depth of call stack is enough: whatever the fuel, the
    refresh step ends in [RecursionError], having entered itself once per
    level and sent one [GET] to [auth/refresh] per level. *)
Theorem refresh_against_401_never_returns (fuel : nat) (s : State unit) :
  let run := _refresh_token unit (constant_server (status_only 401)) fuel s in
  run.1.1 = Raise RecursionError ∧
  (∃ body, run.2 = [Refresh body (Raise RecursionError)] ∧
           refresh_steps (Refresh body (Raise RecursionError)) = S fuel) ∧
  all_wire_requests run.2
    = replicate fuel ("GET", api_server_url (session s) +:+ "/auth/refresh", get_options).
Proof.
  set (io := constant_server (status_only 401)).
  assert (∀ w ses m u kw, io w ses m u kw = (Return (status_only 401), w)) as Hio
    by done.
  clearbody io. revert s. induction fuel as [|fuel IH]; intros s; cbn zeta.
  - rewrite refresh_run. cbn. split; [reflexivity|]. split; [|reflexivity].
    exists []. split; reflexivity.
  - rewrite refresh_run. unfold session_get. rewrite request_run, Hio.
    cbn zeta. cbn [status_only status_code Z.eqb Pos.eqb].
    specialize (IH (Build_State (session s) (world s))). cbn zeta in IH.
    destruct (_refresh_token unit io fuel _) as [[rb s2] l2].
    cbn [fst snd] in IH. destruct IH as (-> & (body & -> & Hsteps) & Hwire).
    cbn [is_RequestException fst snd]. split; [done|]. split.
    + eexists. split; [done|]. cbn [refresh_steps foldr] in *. lia.
    + unfold all_wire_requests in *. cbn [flat_map wire_requests app] in *.
      rewrite !app_nil_r in *. cbn [session api_server_url] in Hwire.
      by rewrite Hwire.
Qed.

(** ** Chunk arithmetic *)

Lemma chunk_size_pos : 0 < chunk_size.
Proof. reflexivity. Qed.

Lemma ceil_div_0 (c : Z) : 0 < c → ceil_div 0 c = 0.
Proof. intros Hc. unfold ceil_div. apply Z.div_small. lia. Qed.

Lemma ceil_div_step (n c : Z) :
  0 < n → 0 < c → ceil_div n c = 1 + ceil_div (Z.max 0 (n - c)) c.
Proof.
  intros Hn Hc. unfold ceil_div.
  destruct (Z.le_gt_cases c n) as [Hle|Hlt].
  - rewrite Z.max_r by lia.
    replace (n + c - 1) with (n - c + c - 1 + 1 * c) by lia.
    rewrite Z.div_add by lia. lia.
  - rewrite Z.max_l by lia.
    rewrite (Z.div_small (0 + c - 1)) by lia.
    symmetry. apply Z.div_unique with (r := n - 1); lia.
Qed.

Lemma ceil_div_nonneg (n c : Z) : 0 ≤ n → 0 < c → 0 ≤ ceil_div n c.
Proof. intros. unfold ceil_div. apply Z.div_pos; lia. Qed.

Lemma ceil_div_mod (n c : Z) :
  0 < c → ceil_div n c = if n mod c =? 0 then n / c else n / c + 1.
Proof.
  intros Hc. unfold ceil_div.
  pose proof (Z.div_mod n c ltac:(lia)) as Hdm.
  pose proof (Z.mod_pos_bound n c Hc) as Hb.
  destruct (Z.eqb_spec (n mod c) 0) as [H0|H0]; symmetry.
  - apply Z.div_unique with (r := c - 1); lia.
  - apply Z.div_unique with (r := n mod c - 1); lia.
Qed.






(** ** The chunk loop *)

Lemma nth_chunk_drop (rest : list byte) (i : nat) :
  nth_chunk (drop (Z.to_nat chunk_size) rest) i = nth_chunk rest (S i).
Proof.
  unfold nth_chunk. by rewrite drop_drop.
Qed.

Lemma nth_chunk_0 (rest : list byte) :
  nth_chunk rest 0 = take (Z.to_nat chunk_size) rest.
Proof. unfold nth_chunk. by rewrite Nat.mul_0_l, drop_0. Qed.

Lemma chunk_posts_app (l1 l2 : list event) :
  chunk_posts (l1 ++ l2) = chunk_posts l1 ++ chunk_posts l2.
Proof. apply omap_app. Qed.

Lemma chunk_posts_post (u : string) (kw : Options) (inner : list event)
    (r : Result Response) (l : list event) :
  chunk_posts (Request "POST" u kw inner r :: l) = kw :: chunk_posts l.
Proof. reflexivity. Qed.

Lemma chunk_posts_get (u : string) (kw : Options) (inner : list event)
    (r : Result Response) (l : list event) :
  chunk_posts (Request "GET" u kw inner r :: l) = chunk_posts l.
Proof. reflexivity. Qed.

Lemma param_chunk_number rnd filename folder_id total number chunk :
  param "resumableChunkNumber"
    (chunk_options rnd filename folder_id total number chunk) = Some (str number).
Proof. reflexivity. Qed.

Lemma param_total_chunks rnd filename folder_id total number chunk :
  param "resumableTotalChunks"
    (chunk_options rnd filename folder_id total number chunk) = Some (str total).
Proof. reflexivity. Qed.

Lemma chunk_bytes_options rnd filename folder_id total number chunk :
  chunk_bytes (chunk_options rnd filename folder_id total number chunk) = chunk.
Proof. reflexivity. Qed.

Section UploadFacts.

Context {World : Type}.
Variable io :
  World -> TokenRefreshSession -> string -> string -> Options ->
  Result Response * World.

(** The log of a session request: nothing when the stack is exhausted,
    else one [Request] node carrying the outcome. *)
Lemma request_log (fuel : nat) (m u : string) (kw : Options) (s : State World) :
  let run := request World io fuel m u kw s in
  (fuel = 0%nat ∧ run.2 = [] ∧ run.1.1 = Raise RecursionError) ∨
  (fuel ≠ 0%nat ∧ ∃ inner, run.2 = [Request m u kw inner run.1.1]).
Proof.
  destruct fuel as [|fuel]; cbn zeta; [by left|]. right. split; [done|].
  cbn [request]. unfold scoped.
  destruct (bind _ _ _ s) as [[r s1] l]. cbn. eauto.
Qed.

Lemma file_id_of_pure (response : option Response) (s : State World) :
  file_id_of World response s = (file_id_value response, s, []).
Proof.
  destruct response as [r|]; [|done]. unfold file_id_of, file_id_value.
  destruct (final_check (Some r)); [|done].
  unfold bind, response_json, json_field.
  destruct (json_body r) as [[]|]; done.
Qed.

Variables (fuel : nat) (self : APIClient) (rnd : Entropy) (filename : string)
          (folder_id : option Z) (total : Z).

Local Abbreviation loop := (upload_loop World io).
Local Abbreviation upload_url := (base_url self +:+ "/files/upload").

(** One turn of the loop. *)
Lemma upload_loop_run (steps : nat) (rest : list byte) (k : Z)
    (resp : option Response) (s : State World) :
  loop (S steps) fuel self rnd filename folder_id total rest k resp s =
  match rest with
  | [] => (Return resp, s, [])
  | _ :: _ =>
      let '(r, s1, l1) :=
        session_post World io fuel upload_url
          (chunk_options rnd filename folder_id total (k + 1) (nth_chunk rest 0)) s in
      match r with
      | Return x =>
          let '(r', s2, l2) :=
            loop steps fuel self rnd filename folder_id total
              (drop (Z.to_nat chunk_size) rest) (k + 1) (Some x) s1 in
          (r', s2, l1 ++ l2)
      | Raise e => (Raise e, s1, l1)
      end
  end.
Proof.
  rewrite nth_chunk_0. cbn [upload_loop fh_read].
  pose proof chunk_size_pos as Hc.
  destruct (Z.to_nat chunk_size) as [|c] eqn:Hcs; [lia|].
  destruct rest as [|b rest']; reflexivity.
Qed.

(** The [POST]s of the loop: the reads of the file in order, numbered
    from [k + 1]; all of them when the loop runs to its end. *)
Lemma upload_loop_posts (steps : nat) (rest : list byte) (k : Z)
    (resp : option Response) (s : State World) :
  (length rest < steps)%nat →
  let run := loop steps fuel self rnd filename folder_id total rest k resp s in
  ∃ j : nat,
    chunk_posts run.2
      = map (fun i => chunk_options rnd filename folder_id total
                        (k + 1 + Z.of_nat i) (nth_chunk rest i)) (seq 0 j) ∧
    Z.of_nat j ≤ ceil_div (Z.of_nat (length rest)) chunk_size ∧
    (∀ r, run.1.1 = Return r →
          Z.of_nat j = ceil_div (Z.of_nat (length rest)) chunk_size).
Proof.
  pose proof chunk_size_pos as Hc.
  revert rest k resp s. induction steps as [|steps IH]; intros rest k resp s Hlen;
    [lia|].
  cbn zeta. rewrite upload_loop_run.
  destruct rest as [|b rest'] eqn:Hrest.
  { exists 0%nat. cbn. rewrite ceil_div_0 by done. done. }
  rewrite <- Hrest in *.
  assert (0 < Z.of_nat (length rest)) as Hpos by (subst rest; cbn; lia).
  pose proof (ceil_div_step _ _ Hpos Hc) as Hstep.
  assert (Z.of_nat (length (drop (Z.to_nat chunk_size) rest))
          = Z.max 0 (Z.of_nat (length rest) - chunk_size)) as Hdrop
    by (rewrite length_drop; lia).
  pose proof (ceil_div_nonneg (Z.max 0 (Z.of_nat (length rest) - chunk_size))
                chunk_size ltac:(lia) Hc) as Hnn.
  unfold session_post.
  pose proof (request_log fuel "POST" upload_url
                (chunk_options rnd filename folder_id total (k + 1) (nth_chunk rest 0)) s)
    as Hlog. cbn zeta in Hlog.
  destruct (request World io fuel "POST" _ _ s) as [[r s1] l1].
  cbn [fst snd] in Hlog.
  destruct r as [x|e].
  - destruct Hlog as [(_ & _ & ?)|(_ & inner & ->)]; [done|].
    specialize (IH (drop (Z.to_nat chunk_size) rest) (k + 1) (Some x) s1).
    cbn zeta in IH.
    destruct IH as (j & Hposts & Hle & Hall).
    { rewrite length_drop. lia. }
    destruct (loop steps _ _ _ _ _ _ _ _ _ s1) as [[r' s2] l2].
    cbn [fst snd] in *. exists (S j). split; [|split].
    + rewrite chunk_posts_app, chunk_posts_post, Hposts. cbn [app seq map chunk_posts omap list_omap].
      f_equal; [f_equal; lia|].
      rewrite <- (fmap_S_seq 0 j). rewrite <- list_fmap_compose.
      apply list_fmap_ext. intros _ i _. cbn.
      rewrite nth_chunk_drop. f_equal. lia.
    + rewrite Hdrop in Hle. lia.
    + intros r Hr. specialize (Hall r Hr). rewrite Hdrop in Hall. lia.
  - destruct Hlog as [(_ & -> & _)|(_ & inner & ->)].
    + exists 0%nat. cbn. split; [done|]. split; [lia|done].
    + exists 1%nat. cbn [fst snd]. rewrite chunk_posts_post. cbn. split; [|split; [lia|done]].
      do 2 f_equal. lia.
Qed.

(** A loop over a non-empty file that runs to its end leaves in
    [response] the response of its last [POST]. *)
Lemma upload_loop_last (steps : nat) (rest : list byte) (k : Z)
    (resp : option Response) (s : State World) (rl : option Response)
    (s' : State World) (l : list event) :
  (length rest < steps)%nat → rest ≠ [] →
  loop steps fuel self rnd filename folder_id total rest k resp s
    = (Return rl, s', l) →
  ∃ l0 kw inner last,
    l = l0 ++ [Request "POST" upload_url kw inner (Return last)] ∧
    rl = Some last.
Proof.
  revert rest k resp s rl s' l.
  induction steps as [|steps IH]; intros rest k resp s rl s' l Hlen Hne Hrun; [lia|].
  rewrite upload_loop_run in Hrun.
  destruct rest as [|b rest'] eqn:Hrest; [done|]. rewrite <- Hrest in *.
  unfold session_post in Hrun.
  pose proof (request_log fuel "POST" upload_url
                (chunk_options rnd filename folder_id total (k + 1) (nth_chunk rest 0)) s)
    as Hlog. cbn zeta in Hlog.
  destruct (request World io fuel "POST" _ _ s) as [[r s1] l1].
  cbn [fst snd] in Hlog. destruct r as [x|e]; [|done].
  destruct Hlog as [(_ & _ & ?)|(_ & inner & ->)]; [done|].
  destruct (loop steps _ _ _ _ _ _ _ _ _ s1) as [[r' s2] l2] eqn:Hrec.
  injection Hrun as -> -> <-.
  destruct (drop (Z.to_nat chunk_size) rest) as [|b' rest''] eqn:Hdrop.
  - destruct steps as [|steps'];
      [cbn [upload_loop] in Hrec | rewrite upload_loop_run in Hrec];
      injection Hrec as <- <- <-.
    all: eexists [], _, inner, x; split; reflexivity.
  - rewrite <- Hdrop in Hrec. apply IH in Hrec as (l0 & kw & inner' & last & -> & ->).
    + by exists (Request "POST" upload_url
                   (chunk_options rnd filename folder_id total (k + 1)
                      (nth_chunk rest 0)) inner (Return x) :: l0),
                kw, inner', last.
    + rewrite length_drop. subst rest. cbn in *. pose proof chunk_size_pos. lia.
    + by rewrite Hdrop.
Qed.

(** The folder check sends no [POST]. *)
Lemma folder_check_posts (s : State World) :
  chunk_posts (folder_check World io fuel self folder_id s).2 = [].
Proof.
  unfold folder_check. destruct (truthy folder_id); [|done].
  unfold bind, session_get.
  pose proof (request_log fuel "GET"
                (base_url self +:+ "/folders/" +:+ str_opt folder_id) get_options s)
    as Hlog. cbn zeta in Hlog.
  destruct (request World io fuel "GET" _ _ s) as [[r s1] l1].
  cbn [fst snd] in Hlog.
  destruct Hlog as [(_ & -> & _)|(_ & inner & ->)]; destruct r; cbn [fst snd app];
    rewrite ?app_nil_r; done.
Qed.

(** One run of [upload_file] on an existing file, phase by phase. *)
Lemma upload_file_run (fs : FileSystem) (file_path : string) (data : list byte)
    (s : State World) :
  fs !! file_path = Some data →
  upload_file World io fuel self fs rnd file_path folder_id s =
  let '(r0, s1, l1) := folder_check World io fuel self folder_id s in
  match r0 with
  | Raise e => (Raise e, s1, l1)
  | Return response =>
      if folder_missing response then (Return (PInt (-1)), s1, l1)
      else
        let '(rl, s2, l2) :=
          loop (S (length data)) fuel self rnd (path_name file_path) folder_id
            (math_ceil (int_true_div (Z.of_nat (length data)) chunk_size))
            data 0 response s1 in
        match rl with
        | Raise e => (Raise e, s2, l1 ++ l2)
        | Return response' => (file_id_value response', s2, l1 ++ l2)
        end
  end.
Proof.
  intros Hfile. unfold upload_file. rewrite Hfile. unfold bind at 1.
  destruct (folder_check World io fuel self folder_id s) as [[[response|e] s1] l1];
    [|done].
  destruct (folder_missing response); [unfold ret; by rewrite app_nil_r|].
  unfold bind.
  destruct (loop _ _ _ _ _ _ _ _ _ _ s1) as [[[response'|e] s2] l2]; [|done].
  by rewrite file_id_of_pure, app_nil_r.
Qed.

(** A loop that stops on an exception has as its last event the [POST]
    that raised it. *)
Lemma upload_loop_raise_last (steps : nat) (rest : list byte) (k : Z)
    (resp : option Response) (s : State World) (e : exn)
    (s' : State World) (l : list event) :
  loop steps fuel self rnd filename folder_id total rest k resp s
    = (Raise e, s', l) →
  (fuel = 0%nat ∧ l = []) ∨
  (∃ l0 kw inner e',
     l = l0 ++ [Request "POST" upload_url kw inner (Raise e')]).
Proof.
  revert rest k resp s l.
  induction steps as [|steps IH]; intros rest k resp s l Hrun; [done|].
  rewrite upload_loop_run in Hrun.
  destruct rest as [|b rest'] eqn:Hrest; [done|]. rewrite <- Hrest in *.
  unfold session_post in Hrun.
  pose proof (request_log fuel "POST" upload_url
                (chunk_options rnd filename folder_id total (k + 1) (nth_chunk rest 0)) s)
    as Hlog. cbn zeta in Hlog.
  destruct (request World io fuel "POST" _ _ s) as [[r s1] l1].
  cbn [fst snd] in Hlog.
  destruct Hlog as [(Hfuel & -> & ->)|(Hfuel & inner & ->)].
  - injection Hrun as <- <- <-. by left.
  - destruct r as [x|e0].
    + destruct (loop steps _ _ _ _ _ _ _ _ _ s1) as [[r' s2] l2] eqn:Hrec.
      injection Hrun as -> -> <-.
      apply IH in Hrec as [[? _]|(l0 & kw & inner' & e' & ->)]; [done|].
      right. by exists (Request "POST" upload_url
                   (chunk_options rnd filename folder_id total (k + 1)
                      (nth_chunk rest 0)) inner (Return x) :: l0),
                kw, inner', e'.
    + injection Hrun as <- <- <-. right. by eexists [], _, inner, e0.
Qed.

End UploadFacts.

(** ** [upload_file] *)

Section Upload.

Context {World : Type}.
Variable io :
  World -> TokenRefreshSession -> string -> string -> Options ->
  Result Response * World.

Variables (fuel : nat) (self : APIClient) (fs : FileSystem) (rnd : Entropy)
          (file_path : string) (folder_id : option Z).

Local Abbreviation upload := (upload_file World io fuel self fs rnd file_path folder_id).
Local Abbreviation declared_total data :=
  (math_ceil (int_true_div (Z.of_nat (length data)) chunk_size)).

(** The [POST]s of an upload: the reads of the file in order, numbered
    from 1, each declaring the same total; none when the folder check
    stops the upload, all of them when the loop runs to its end. *)
Lemma upload_file_posts (data : list byte) (s : State World) :
  fs !! file_path = Some data →
  ∃ j : nat,
    chunk_posts (upload s).2
      = map (fun i => chunk_options rnd (path_name file_path) folder_id
                        (declared_total data) (1 + Z.of_nat i) (nth_chunk data i))
            (seq 0 j) ∧
    Z.of_nat j ≤ ceil_div (Z.of_nat (length data)) chunk_size ∧
    (∀ v, (upload s).1.1 = Return v →
       (j = 0%nat ∧
        ∃ r, (folder_check World io fuel self folder_id s).1.1 = Return r ∧
             folder_missing r = true) ∨
       (Z.of_nat j = ceil_div (Z.of_nat (length data)) chunk_size ∧
        ∃ r, (folder_check World io fuel self folder_id s).1.1 = Return r ∧
             folder_missing r = false)).
Proof.
  intros Hfile. rewrite (upload_file_run io fuel self rnd folder_id fs file_path data s Hfile).
  pose proof (folder_check_posts io fuel self folder_id s) as Hcheck.
  destruct (folder_check World io fuel self folder_id s) as [[[response|e] s1] l1];
    cbn [fst snd] in *.
  2: { exists 0%nat. rewrite Hcheck. split; [done|].
       split; [apply ceil_div_nonneg; [lia|apply chunk_size_pos]|done]. }
  destruct (folder_missing response) eqn:Hmiss.
  { exists 0%nat. cbn [fst snd]. rewrite Hcheck. split; [done|].
    split; [apply ceil_div_nonneg; [lia|apply chunk_size_pos]|].
    intros v _. left. eauto. }
  pose proof (upload_loop_posts io fuel self rnd (path_name file_path) folder_id
                (declared_total data) (S (length data)) data 0 response s1
                ltac:(lia)) as (j & Hposts & Hle & Hall).
  cbn zeta in *.
  destruct (upload_loop World io (S (length data)) _ _ _ _ _ _ _ _ _ s1)
    as [[[response'|e] s2] l2]; cbn [fst snd] in *.
  - exists j. rewrite chunk_posts_app, Hcheck, Hposts. split; [done|].
    split; [done|]. intros v _. right. split; [by eapply Hall|eauto].
  - exists j. rewrite chunk_posts_app, Hcheck, Hposts. split; [done|].
    split; [done|]. intros v Hv. done.
Qed.


(** C7.  When a folder identifier is supplied and the [GET] of the folder
    returns a response with status 404, [upload_file] returns [-1] without
    raising; its log is the log of that [GET], which holds no [POST] at
    its own level and only [GET]s on the wire. *)
Theorem upload_file_folder_not_found (data : list byte) (s : State World)
    (r : Response) (s1 : State World) (l1 : list event) :
  fs !! file_path = Some data →
  truthy folder_id = true →
  session_get World io fuel (base_url self +:+ "/folders/" +:+ str_opt folder_id) s
    = (Return r, s1, l1) →
  status_code r = 404 →
  upload s = (Return (PInt (-1)), s1, l1) ∧
  chunk_posts l1 = [] ∧
  Forall (fun x => x.1.1 = "GET") (all_wire_requests l1).
Proof.
  intros Hfile Htruthy Hget H404.
  pose proof (folder_check_posts io fuel self folder_id s) as Hposts.
  rewrite (upload_file_run io fuel self rnd folder_id fs file_path data s Hfile).
  unfold folder_check in *. rewrite Htruthy in *. unfold bind in *.
  rewrite Hget in *. cbn [ret fst snd] in *. rewrite app_nil_r in *.
  unfold folder_missing. apply Z.eqb_eq in H404 as ->.
  split; [done|]. split; [done|].
  pose proof (request_wire_methods io fuel "GET"
                (base_url self +:+ "/folders/" +:+ str_opt folder_id)
                get_options s) as Hwire.
  unfold session_get in Hget. rewrite Hget in Hwire. cbn [snd] in Hwire.
  eapply Forall_impl; [exact Hwire|]. cbn. intros x [H|H]; done.
Qed.

(** C1, with the chunk size the code uses.  When the file exists, the
    folder check does not answer 404 and [upload_file] returns, the number
    of chunk [POST]s is [ceil (S / 1024000)] for a file of [S] bytes, and
    the [i]-th of them (from 0) carries the bytes from offset
    [i * 1024000] up to 1,024,000 bytes further, or to the end of the
    file. *)
Theorem upload_file_chunk_count (data : list byte) (s : State World)
    (r0 : option Response) (s1 : State World) (l1 : list event)
    (v : PyVal) (s' : State World) (log : list event) :
  fs !! file_path = Some data →
  folder_check World io fuel self folder_id s = (Return r0, s1, l1) →
  folder_missing r0 = false →
  upload s = (Return v, s', log) →
  Z.of_nat (length (chunk_posts log))
    = ceil_div (Z.of_nat (length data)) 1024000 ∧
  (∀ (i : nat) (kw : Options),
     chunk_posts log !! i = Some kw →
     chunk_bytes kw
       = take (Z.to_nat 1024000) (drop (i * Z.to_nat 1024000) data)).
Proof.
  intros Hfile Hcheck Hmiss Hrun.
  destruct (upload_file_posts data s Hfile) as (j & Hposts & _ & Hdone).
  rewrite Hrun in Hposts, Hdone. cbn [fst snd] in *. rewrite Hcheck in Hdone.
  cbn [fst] in Hdone.
  destruct (Hdone v eq_refl) as [(_ & r & [= <-] & Hr)|(Hj & _)]; [congruence|].
  rewrite Hposts. split.
  - rewrite length_map, length_seq. exact Hj.
  - intros i kw Hi. apply list_lookup_fmap_Some in Hi as (i' & -> & Hi').
    apply lookup_seq in Hi' as [-> _]. by rewrite chunk_bytes_options.
Qed.


(** C4.  When an upload of an existing file ends with a chunk [POST] that
    returned a response (the loop ran to its end), what [upload_file]
    yields is decided by that response alone: the [id] field of its JSON
    body when its status is 201, and [-1] for any other status. *)
Theorem upload_file_result_from_last_response (data : list byte) (s : State World)
    (r : Result PyVal) (s' : State World) (log log0 : list event)
    (u : string) (kw : Options) (inner : list event) (last_response : Response) :
  fs !! file_path = Some data →
  upload s = (r, s', log) →
  log = log0 ++ [Request "POST" u kw inner (Return last_response)] →
  r = if status_code last_response =? 201 then json_field last_response "id"
      else Return (PInt (-1)).
Proof.
  intros Hfile Hrun Hlog.
  rewrite (upload_file_run io fuel self rnd folder_id fs file_path data s Hfile)
    in Hrun.
  assert (∀ l1 : list event, chunk_posts l1 = [] →
            l1 ≠ log0 ++ [Request "POST" u kw inner (Return last_response)])
    as Hnopost.
  { intros l1 Hl1 ->. rewrite chunk_posts_app, chunk_posts_post in Hl1.
    by destruct (chunk_posts log0). }
  pose proof (folder_check_posts io fuel self folder_id s) as Hcheck.
  destruct (folder_check World io fuel self folder_id s) as [[[response|e] s1] l1];
    cbn [snd] in Hcheck.
  2: { injection Hrun as <- <- <-. by destruct (Hnopost l1). }
  destruct (folder_missing response).
  { injection Hrun as <- <- <-. by destruct (Hnopost l1). }
  destruct (upload_loop World io (S (length data)) _ _ _ _ _ _ _ _ _ s1)
    as [[[response'|e] s2] l2] eqn:Hloop.
  - injection Hrun as <- <- <-.
    destruct data as [|b data'] eqn:Hdata.
    { rewrite upload_loop_run in Hloop. injection Hloop as <- <- <-.
      rewrite app_nil_r in Hlog. by destruct (Hnopost l1). }
    rewrite <- Hdata in *.
    apply upload_loop_last in Hloop
      as (l0 & kw' & inner' & last' & -> & ->); [|lia|by subst data].
    rewrite app_assoc in Hlog. apply app_inj_tail in Hlog as [_ [= _ _ _ ->]].
    unfold file_id_value, final_check, ok.
    destruct (Z.eqb_spec (status_code last_response) 201) as [->|Hne]; [done|].
    by rewrite andb_false_r.
  - injection Hrun as <- <- <-.
    apply upload_loop_raise_last in Hloop
      as [[_ ->]|(l0 & kw' & inner' & e' & ->)].
    + rewrite app_nil_r in Hlog. by destruct (Hnopost l1).
    + rewrite app_assoc in Hlog. by apply app_inj_tail in Hlog as [_ ?].
Qed.

End Upload.

(** ** Worked examples *)

(** A request answered 401, a refresh that succeeds, and a retry answered
    500: the 500 response is what the request returns. *)
Lemma request_401_refreshes_once_retries_once_witness :
  let s := demo_state [Return (status_only 401); Return (fresh_token "t2");
                       Return (status_only 500)] in
  let u := "https://relik.example/api/v1/folders/7" in
  scripted (world s) (session s) "GET" u no_options
    = (Return (status_only 401),
       [Return (fresh_token "t2"); Return (status_only 500)]) ∧
  status_code (status_only 401) = 401 ∧
  (request _ scripted 2 "GET" u no_options s).1.1 = Return (status_only 500) ∧
  ∃ rb s2 body r s' tail,
    _refresh_token _ scripted 1
      (Build_State (session s) [Return (fresh_token "t2"); Return (status_only 500)])
      = (rb, s2, [Refresh body rb]) ∧
    request _ scripted 2 "GET" u no_options s
      = (r, s',
         [Request "GET" u no_options
            (Wire "GET" u no_options (headers (session s))
               (Return (status_only 401)) :: Refresh body rb :: tail) r]) ∧
    filter is_refresh tail = [] ∧
    (rb = Return true →
       ∃ r3 w3, scripted (world s2) (session s2) "GET" u no_options = (r3, w3) ∧
                r = r3 ∧ s' = Build_State (session s2) w3 ∧
                tail = [Wire "GET" u no_options (headers (session s2)) r3]) ∧
    (rb ≠ Return true → tail = []) ∧
    (∀ r0 w2,
       let refresh_url := api_server_url (session s) +:+ "/auth/refresh" in
       1%nat ≠ 0%nat →
       scripted [Return (fresh_token "t2"); Return (status_only 500)] (session s)
         "GET" refresh_url get_options = (r0, w2) →
       (∀ resp0, r0 = Return resp0 → status_code resp0 ≠ 401) →
       refresh_steps (Refresh body rb) = 1%nat ∧
       all_wire_requests (request _ scripted 2 "GET" u no_options s).2
         = ("GET", u, no_options) :: ("GET", refresh_url, get_options)
             :: match rb with Return true => [("GET", u, no_options)] | _ => [] end).
Proof.
  cbn zeta. split; [reflexivity|]. split; [reflexivity|]. split; [reflexivity|].
  apply (request_401_refreshes_once_retries_once scripted 1 "GET"
           "https://relik.example/api/v1/folders/7" no_options
           (demo_state [Return (status_only 401); Return (fresh_token "t2");
                        Return (status_only 500)])
           (status_only 401)
           [Return (fresh_token "t2"); Return (status_only 500)]);
    reflexivity.
Defined.

(** A request answered 401 and a refresh answered 500: the request raises
    and only two exchanges were made. *)
Lemma request_401_failed_refresh_raises_witness :
  let s := demo_state [Return (status_only 401); Return (status_only 500);
                       Return (status_only 200)] in
  let u := "https://relik.example/api/v1/folders/7" in
  let s1 := Build_State (session s) [Return (status_only 500); Return (status_only 200)] in
  let refreshed := _refresh_token _ scripted 1 s1 in
  scripted (world s) (session s) "GET" u no_options = (Return (status_only 401), world s1) ∧
  status_code (status_only 401) = 401 ∧
  refreshed = (Return false, refreshed.1.2, refreshed.2) ∧
  world refreshed.1.2 = [Return (status_only 200)] ∧
  request _ scripted 2 "GET" u no_options s
    = (Raise TokenRefreshFailed, refreshed.1.2,
       [Request "GET" u no_options
          (Wire "GET" u no_options (headers (session s)) (Return (status_only 401))
             :: refreshed.2)
          (Raise TokenRefreshFailed)]) ∧
  all_wire_requests (request _ scripted 2 "GET" u no_options s).2
    = ("GET", u, no_options) :: all_wire_requests refreshed.2.
Proof.
  cbn zeta. split; [reflexivity|]. split; [reflexivity|]. split; [reflexivity|].
  split; [reflexivity|].
  apply (request_401_failed_refresh_raises scripted 1 "GET"
           "https://relik.example/api/v1/folders/7" no_options
           (demo_state [Return (status_only 401); Return (status_only 500);
                        Return (status_only 200)])
           (status_only 401)
           [Return (status_only 500); Return (status_only 200)]);
    reflexivity.
Defined.


(** ** Workflows *)

(** What each workflow operation does with a response whose status is not
    its success code. *)
Theorem workflow_failure_policy {World : Type}
    (io : World -> TokenRefreshSession -> string -> string -> Options ->
          Result Response * World)
    (fuel : nat) (self : APIClient) (folder_id workflow_id : Z) (workflow_data : PyVal)
    (s : State World) (r : Response) (s1 : State World) (l1 : list event) :
  let endpoint := workflow_endpoint self folder_id workflow_id in
  (session_patch World io fuel endpoint (json_options workflow_data) s = (Return r, s1, l1) →
   status_code r ≠ 200 →
   update_workflow World io fuel self folder_id workflow_id workflow_data s
     = (Raise (RuntimeError "Error updating workflow."), s1, l1)) ∧
  (session_post World io fuel (endpoint +:+ "/run") no_options s = (Return r, s1, l1) →
   status_code r ≠ 200 →
   run_workflow World io fuel self folder_id workflow_id s
     = (Raise (RuntimeError "Error running workflow."), s1, l1)) ∧
  (session_get World io fuel endpoint s = (Return r, s1, l1) →
   status_code r ≠ 200 →
   get_workflow World io fuel self folder_id workflow_id s = (Return PNone, s1, l1)) ∧
  (session_delete World io fuel endpoint s = (Return r, s1, l1) →
   status_code r ≠ 204 →
   delete_workflow World io fuel self folder_id workflow_id s = (Return false, s1, l1)).
Proof.
  cbn zeta. repeat split; intros Hcall Hstatus.
  all: unfold update_workflow, run_workflow, get_workflow, delete_workflow, bind.
  all: rewrite Hcall.
  all: destruct (Z.eqb_spec (status_code r) 200) as [?|_];
    destruct (Z.eqb_spec (status_code r) 204) as [?|_]; try done.
  all: cbn; by rewrite app_nil_r.
Qed.

(** C5, on the code as it is.  Against a server that answers 404,
    [update_workflow] and [run_workflow] raise [RuntimeError], but
    [get_workflow] returns [None] and [delete_workflow] returns [False]:
    neither raises. *)
Theorem workflow_get_and_delete_do_not_raise :
  let io := constant_server (status_only 404) in
  let s := demo_state tt in
  (update_workflow unit io 1 demo_client 3 9 (PDict []) s).1.1
    = Raise (RuntimeError "Error updating workflow.") ∧
  (run_workflow unit io 1 demo_client 3 9 s).1.1
    = Raise (RuntimeError "Error running workflow.") ∧
  (get_workflow unit io 1 demo_client 3 9 s).1.1 = Return PNone ∧
  (delete_workflow unit io 1 demo_client 3 9 s).1.1 = Return false ∧
  all_wire_requests (get_workflow unit io 1 demo_client 3 9 s).2
    = [("GET", "https://relik.example/api/v1/folders/3/workflows/9", get_options)] ∧
  all_wire_requests (delete_workflow unit io 1 demo_client 3 9 s).2
    = [("DELETE", "https://relik.example/api/v1/folders/3/workflows/9", no_options)].
Proof. cbn zeta. repeat split; reflexivity. Qed.

(** ** Worked uploads *)


(** A folder that is not there: one [GET], no chunk, and [-1]. *)
Lemma upload_file_folder_not_found_witness :
  let s := demo_state [Return (status_only 404); Return (created 77)] in
  let u := base_url demo_client +:+ "/folders/" +:+ str_opt (Some 999) in
  let got := session_get _ scripted 2 u s in
  demo_fs !! "/cases/disk.img" = Some ["001"; "002"; "003"]%byte ∧
  truthy (Some 999) = true ∧
  got = (Return (status_only 404), got.1.2, got.2) ∧
  status_code (status_only 404) = 404 ∧
  u = "https://relik.example/api/v1/folders/999" ∧
  world got.1.2 = [Return (created 77)] ∧
  upload_file _ scripted 2 demo_client demo_fs demo_entropy "/cases/disk.img" (Some 999) s
    = (Return (PInt (-1)), got.1.2, got.2) ∧
  chunk_posts got.2 = [] ∧
  Forall (fun x => x.1.1 = "GET") (all_wire_requests got.2).
Proof.
  cbn zeta. split; [reflexivity|]. split; [reflexivity|]. split; [reflexivity|].
  split; [reflexivity|]. split; [reflexivity|]. split; [reflexivity|].
  apply (upload_file_folder_not_found scripted 2 demo_client demo_fs demo_entropy
           "/cases/disk.img" (Some 999) ["001"; "002"; "003"]%byte
           (demo_state [Return (status_only 404); Return (created 77)])
           (status_only 404));
    reflexivity.
Defined.

(** A three-byte file goes up in one chunk. *)
Lemma upload_file_chunk_count_witness :
  let s := demo_state [Return (status_only 200); Return (created 77)] in
  let checked := folder_check _ scripted 2 demo_client (Some 7) s in
  let run :=
    upload_file _ scripted 2 demo_client demo_fs demo_entropy "/cases/disk.img" (Some 7) s in
  demo_fs !! "/cases/disk.img" = Some ["001"; "002"; "003"]%byte ∧
  checked = (Return (Some (status_only 200)), checked.1.2, checked.2) ∧
  folder_missing (Some (status_only 200)) = false ∧
  run = (Return (PInt 77), run.1.2, run.2) ∧
  Z.of_nat (length (chunk_posts run.2)) = 1 ∧
  Z.of_nat (length (chunk_posts run.2))
    = ceil_div (Z.of_nat (length ["001"; "002"; "003"]%byte)) 1024000 ∧
  (∀ (i : nat) (kw : Options),
     chunk_posts run.2 !! i = Some kw →
     chunk_bytes kw
       = take (Z.to_nat 1024000)
           (drop (i * Z.to_nat 1024000) ["001"; "002"; "003"]%byte)).
Proof.
  intros s checked run.
  split; [reflexivity|]. split; [reflexivity|]. split; [reflexivity|].
  split; [reflexivity|]. split; [reflexivity|].
  apply (upload_file_chunk_count scripted 2 demo_client demo_fs demo_entropy
           "/cases/disk.img" (Some 7) ["001"; "002"; "003"]%byte s
           (Some (status_only 200)) checked.1.2 checked.2 (PInt 77) run.1.2 run.2);
    reflexivity.
Defined.


(** An upload without folder check whose only chunk is answered 201 with
    [{"id": 77}]: the result is 77. *)
Lemma upload_file_result_from_last_response_witness :
  let s := demo_state [Return (created 77)] in
  let data := ["001"; "002"; "003"]%byte in
  let u := "https://relik.example/api/v1/files/upload" in
  let kw := chunk_options demo_entropy "disk.img" None 1 1 data in
  let inner := [Wire "POST" u kw (headers demo_session) (Return (created 77))] in
  let run :=
    upload_file _ scripted 2 demo_client demo_fs demo_entropy "/cases/disk.img" None s in
  demo_fs !! "/cases/disk.img" = Some data ∧
  run = (Return (PInt 77), run.1.2, run.2) ∧
  run.2 = [] ++ [Request "POST" u kw inner (Return (created 77))] ∧
  Return (PInt 77)
    = if status_code (created 77) =? 201 then json_field (created 77) "id"
      else Return (PInt (-1)).
Proof.
  intros s data u kw inner run.
  split; [reflexivity|]. split; [reflexivity|]. split; [reflexivity|].
  apply (upload_file_result_from_last_response scripted 2 demo_client demo_fs
           demo_entropy "/cases/disk.img" None data s (Return (PInt 77)) run.1.2
           run.2 [] u kw inner (created 77));
    reflexivity.
Defined.

(** ** Where the stated chunk size and the code part *)

(** C1 as stated fails: a file of 1,000,001 bytes, uploaded to a server
    that accepts everything, goes up in one chunk, while
    [ceil (1000001 / 1000000)] is 2. *)
Lemma upload_file_decimal_chunk_count_fails :
  let data := replicate (Z.to_nat 1000001) "000"%byte in
  let fs : FileSystem := {[ "/cases/disk.img" := data ]} in
  let run :=
    upload_file unit (constant_server (created 77)) 2 demo_client fs demo_entropy
      "/cases/disk.img" (Some 7) (demo_state tt) in
  Z.of_nat (length data) = 1000001 ∧
  run.1.1 = Return (PInt 77) ∧
  Z.of_nat (length (chunk_posts run.2)) = 1 ∧
  Z.of_nat (length (chunk_posts run.2)) ≠ ceil_div (Z.of_nat (length data)) 1000000.
Proof.
  cbn zeta. vm_compute. repeat split; congruence.
Qed.

(** ** Servers that answer every request *)

Section Accepting.

Context {World : Type}.
Variable io :
  World -> TokenRefreshSession -> string -> string -> Options ->
  Result Response * World.

(** Every exchange gets a response, and never a 401. *)
Hypothesis accepting :
  ∀ w ses m u kw, ∃ resp w',
    io w ses m u kw = (Return resp, w') ∧ status_code resp ≠ 401.

Lemma request_accepted (fuel : nat) (m u : string) (kw : Options) (s : State World) :
  ∃ resp w',
    io (world s) (session s) m u kw = (Return resp, w') ∧
    request World io (S fuel) m u kw s
      = (Return resp, Build_State (session s) w',
         [Request m u kw [Wire m u kw (headers (session s)) (Return resp)]
            (Return resp)]).
Proof.
  destruct (accepting (world s) (session s) m u kw) as (resp & w' & Hio & Hno).
  exists resp, w'. split; [done|]. rewrite request_run, Hio. cbn zeta.
  by destruct (Z.eqb_spec (status_code resp) 401).
Qed.

(** Against such a server, with stack for one call, the chunk loop always
    runs to its end, leaving in [response] what it found there or a
    response of the server. *)
Lemma upload_loop_accepted (fuel : nat) (self : APIClient) (rnd : Entropy)
    (filename : string) (folder_id : option Z) (total : Z) (steps : nat)
    (rest : list byte) (k : Z) (resp : option Response) (s : State World) :
  ∃ rl s' l,
    upload_loop World io steps (S fuel) self rnd filename folder_id total rest k
      resp s = (Return rl, s', l) ∧
    (rl = resp ∨
     ∃ r w ses m u kw w', rl = Some r ∧ io w ses m u kw = (Return r, w')).
Proof.
  revert rest k resp s. induction steps as [|steps IH]; intros rest k resp s.
  { exists resp, s, []. by split; [|left]. }
  rewrite upload_loop_run. destruct rest as [|b rest'] eqn:Hrest.
  { exists resp, s, []. by split; [|left]. }
  rewrite <- Hrest. unfold session_post.
  destruct (request_accepted fuel "POST" (base_url self +:+ "/files/upload")
              (chunk_options rnd filename folder_id total (k + 1) (nth_chunk rest 0)) s)
    as (r & w' & Hio & ->).
  destruct (IH (drop (Z.to_nat chunk_size) rest) (k + 1) (Some r)
              (Build_State (session s) w')) as (rl & s' & l & -> & Hrl).
  eexists _, _, _. split; [done|]. right.
  destruct Hrl as [->|Hrl]; [|done]. by eexists r, _, _, _, _, _, _.
Qed.

(** So every chunk of an existing file is posted, unless the folder check
    says 404. *)
Lemma upload_file_accepted (fuel : nat) (self : APIClient) (fs : FileSystem)
    (rnd : Entropy) (file_path : string) (folder_id : option Z)
    (data : list byte) (s : State World) :
  fs !! file_path = Some data →
  let run := upload_file World io (S fuel) self fs rnd file_path folder_id s in
  (run.1.1 = Return (PInt (-1)) ∧ chunk_posts run.2 = [] ∧
   ∃ r, (folder_check World io (S fuel) self folder_id s).1.1 = Return r ∧
        folder_missing r = true) ∨
  (Z.of_nat (length (chunk_posts run.2))
     = ceil_div (Z.of_nat (length data)) chunk_size ∧
   ∃ rl, run.1.1 = file_id_value rl ∧
         (rl = None ∨
          ∃ r w ses m u kw w', rl = Some r ∧ io w ses m u kw = (Return r, w'))).
Proof.
  intros Hfile run.
  destruct (upload_file_posts io (S fuel) self fs rnd file_path folder_id data s Hfile)
    as (j & Hposts & _ & Hdone). fold run in Hposts, Hdone.
  unfold run in *. clear run.
  rewrite (upload_file_run io (S fuel) self rnd folder_id fs file_path data s Hfile)
    in *.
  assert (∃ r0 s1 l1,
            folder_check World io (S fuel) self folder_id s = (Return r0, s1, l1) ∧
            (r0 = None ∨
             ∃ r w ses m u kw w', r0 = Some r ∧ io w ses m u kw = (Return r, w')))
    as (r0 & s1 & l1 & Hcheck & Hr0).
  { unfold folder_check. destruct (truthy folder_id).
    - unfold bind, session_get.
      destruct (request_accepted fuel "GET"
                  (base_url self +:+ "/folders/" +:+ str_opt folder_id)
                  get_options s) as (r & w' & Hio & ->).
      eexists _, _, _. split; [done|]. right. by eexists r, _, _, _, _, _, _.
    - eexists _, _, _. split; [done|]. by left. }
  rewrite Hcheck in *. cbn [fst snd] in *.
  destruct (folder_missing r0) eqn:Hmiss.
  - left. cbn [fst snd] in *.
    destruct (Hdone _ eq_refl) as [(-> & _)|(_ & r & [= <-] & ?)]; [|congruence].
    split; [done|]. split; [by rewrite Hposts|]. eauto.
  - right.
    destruct (upload_loop_accepted fuel self rnd (path_name file_path) folder_id
                (math_ceil (int_true_div (Z.of_nat (length data)) chunk_size))
                (S (length data)) data 0 r0 s1) as (rl & s' & l & Hloop & Hrl).
    rewrite Hloop in *. cbn [fst snd] in *. split.
    + pose proof (upload_loop_posts io (S fuel) self rnd (path_name file_path)
                    folder_id
                    (math_ceil (int_true_div (Z.of_nat (length data)) chunk_size))
                    (S (length data)) data 0 r0 s1 ltac:(lia))
        as (j' & Hposts' & _ & Hall).
      cbn zeta in *. rewrite Hloop in *. cbn [fst snd] in *.
      pose proof (folder_check_posts io (S fuel) self folder_id s) as Hfc.
      rewrite Hcheck in Hfc. cbn [snd] in Hfc.
      rewrite chunk_posts_app, Hfc, Hposts'. cbn [app].
      rewrite length_map, length_seq. by eapply Hall.
    + exists rl. split; [done|]. destruct Hrl as [->|Hrl]; [|by right].
      destruct Hr0 as [->|Hr0]; [by left|by right].
Qed.

End Accepting.

Lemma constant_server_accepting (r : Response) :
  status_code r ≠ 401 →
  ∀ w ses m u kw, ∃ resp w',
    constant_server r w ses m u kw = (Return resp, w') ∧ status_code resp ≠ 401.
Proof. intros Hno w ses m u kw. by exists r, w. Qed.

(** An upload of 17,592,186,044,416,001 bytes, one byte more than [2 ^ 34]
    full chunks, to a server that accepts everything. *)
Lemma huge_upload_numbers (data : list byte) :
  Z.of_nat (length data) = 17592186044416001 →
  let fs : FileSystem := {[ "/cases/huge.img" := data ]} in
  let run :=
    upload_file unit (constant_server (created 77)) 1 demo_client fs demo_entropy
      "/cases/huge.img" None (demo_state tt) in
  ∃ v kw,
    run.1.1 = Return v ∧
    last (chunk_posts run.2) = Some kw ∧
    param "resumableChunkNumber" kw = Some "17179869185" ∧
    param "resumableTotalChunks" kw = Some "17179869184" ∧
    param "resumableChunkNumber" kw ≠ param "resumableTotalChunks" kw.
Proof.
  intros Hsize fs run.
  assert (fs !! "/cases/huge.img" = Some data) as Hfile
    by apply lookup_singleton_eq.
  destruct (upload_file_posts (constant_server (created 77)) 1 demo_client fs
              demo_entropy "/cases/huge.img" None data (demo_state tt) Hfile)
    as (j & Hposts & _ & Hdone).
  fold run in Hposts, Hdone.
  assert (∃ v, run.1.1 = Return v) as [v Hv].
  { destruct (upload_file_accepted (constant_server (created 77))
                (constant_server_accepting (created 77) ltac:(done)) 0 demo_client fs
                demo_entropy "/cases/huge.img" None data (demo_state tt) Hfile)
      as [(Hv & _)|(_ & rl & Hv & Hrl)]; fold run in Hv; [eauto|].
    rewrite Hv.
    destruct Hrl as [->|(r & w & ses & m & u & kw & w' & -> & [= <- _])]; eauto. }
  destruct (Hdone v Hv) as [(_ & r0 & [= <-] & ?)|(Hj & _)]; [done|].
  rewrite Hsize in Hj.
  assert (ceil_div 17592186044416001 chunk_size = 17179869185) as Hceil
    by (vm_compute; reflexivity).
  rewrite Hceil in Hj.
  exists v, (chunk_options demo_entropy (path_name "/cases/huge.img") None
               (math_ceil (int_true_div (Z.of_nat (length data)) chunk_size))
               (1 + Z.of_nat (j - 1)) (nth_chunk data (j - 1))).
  assert (str 17179869185 = "17179869185") as Hnum by (vm_compute; reflexivity).
  assert (str (math_ceil (int_true_div 17592186044416001 chunk_size)) = "17179869184")
    as Htot by (vm_compute; reflexivity).
  rewrite param_chunk_number, param_total_chunks, Hsize, Htot.
  replace (1 + Z.of_nat (j - 1)) with 17179869185 by lia. rewrite Hnum.
  split; [exact Hv|]. split; [|split; [reflexivity|split; [reflexivity|discriminate]]].
  rewrite Hposts, last_lookup, length_map, length_seq, list_lookup_fmap.
  rewrite lookup_seq_lt by lia. cbn [fmap option_fmap option_map plus].
  rewrite Hsize. do 3 f_equal; lia.
Qed.

(** C6, on the code as it is, beyond [2 ^ 34] full chunks.  For a file of
    17,592,186,044,416,001 bytes, uploaded to a server that accepts
    everything, the last chunk [POST] carries the chunk number 17179869185
    while it, like every chunk, declares a total of 17179869184: the
    quotient of the size by the chunk size is rounded to binary64 before
    [math.ceil]. *)
Theorem upload_file_last_number_differs_from_total :
  let data := replicate (Z.to_nat 17592186044416001) "000"%byte in
  let fs : FileSystem := {[ "/cases/huge.img" := data ]} in
  let run :=
    upload_file unit (constant_server (created 77)) 1 demo_client fs demo_entropy
      "/cases/huge.img" None (demo_state tt) in
  ∃ v kw,
    run.1.1 = Return v ∧
    last (chunk_posts run.2) = Some kw ∧
    param "resumableChunkNumber" kw = Some "17179869185" ∧
    param "resumableTotalChunks" kw = Some "17179869184" ∧
    param "resumableChunkNumber" kw ≠ param "resumableTotalChunks" kw.
Proof.
  intros data. apply (huge_upload_numbers data).
  unfold data. rewrite length_replicate. apply Z2Nat.id. lia.
Qed.

(** ** What a session keeps and what it sends *)

Lemma same_credentials_refl (a : TokenRefreshSession) : same_credentials a a.
Proof. by split. Qed.

Lemma same_credentials_trans (a b c : TokenRefreshSession) :
  same_credentials a b → same_credentials b c → same_credentials a c.
Proof.
  intros [Hu Hh] [Hu' Hh']. split; [congruence|].
  intros name Hne. by rewrite Hh, Hh'.
Qed.

Lemma same_credentials_token {World : Type} (tok : PyVal) (s : State World) :
  same_credentials (session s) (session (with_access_token tok s)).
Proof.
  split; [done|]. intros name Hne. cbn. by rewrite lookup_insert_ne.
Qed.

Section Credentials.

Context {World : Type}.
Variable io :
  World -> TokenRefreshSession -> string -> string -> Options ->
  Result Response * World.

Lemma request_credentials (fuel : nat) (m u : string) (kw : Options) (s : State World) :
  same_credentials (session s) (session (request World io fuel m u kw s).1.2).
Proof.
  revert m u kw s. induction fuel as [|fuel IH]; intros m u kw s;
    [apply same_credentials_refl|].
  rewrite request_run.
  destruct (io (world s) (session s) m u kw) as [[resp|e] w1]; cbn zeta;
    [|apply same_credentials_refl].
  destruct (status_code resp =? 401); [|apply same_credentials_refl].
  rewrite refresh_run. unfold session_get.
  set (s1 := Build_State (session s) w1).
  specialize (IH "GET" (api_server_url (session s1) +:+ "/auth/refresh") get_options s1).
  destruct (request World io fuel "GET" _ get_options s1) as [[r s2] l2].
  cbn [fst snd] in IH. change (session s1) with (session s) in IH.
  assert (∀ tok, same_credentials (session s) (session (with_access_token tok s2)))
    as Htok.
  { intros tok. eapply same_credentials_trans; [exact IH|].
    apply same_credentials_token. }
  destruct r as [resp2|e2].
  - destruct (ok resp2); [destruct (json_body resp2) as [[]|]|]; try exact IH.
    destruct (io _ _ m u kw) as [r3 w3]. apply Htok.
  - destruct (is_RequestException e2); exact IH.
Qed.

Lemma refresh_credentials (fuel : nat) (s : State World) :
  same_credentials (session s) (session (_refresh_token World io fuel s).1.2).
Proof.
  rewrite refresh_run. unfold session_get.
  pose proof (request_credentials fuel "GET"
                (api_server_url (session s) +:+ "/auth/refresh") get_options s) as H.
  destruct (request World io fuel "GET" _ get_options s) as [[r s2] l2].
  cbn [fst snd] in H.
  destruct r as [resp2|e2].
  - destruct (ok resp2); [destruct (json_body resp2) as [[]|]|]; try exact H.
    eapply same_credentials_trans; [exact H|apply same_credentials_token].
  - destruct (is_RequestException e2); exact H.
Qed.

Lemma upload_loop_credentials (steps fuel : nat) (self : APIClient) (rnd : Entropy)
    (filename : string) (folder_id : option Z) (total : Z) (rest : list byte)
    (k : Z) (resp : option Response) (s : State World) :
  same_credentials (session s)
    (session (upload_loop World io steps fuel self rnd filename folder_id total
                rest k resp s).1.2).
Proof.
  revert rest k resp s. induction steps as [|steps IH]; intros rest k resp s;
    [apply same_credentials_refl|].
  rewrite upload_loop_run. destruct rest as [|b rest'] eqn:Hrest;
    [apply same_credentials_refl|]. rewrite <- Hrest. unfold session_post.
  pose proof (request_credentials fuel "POST" (base_url self +:+ "/files/upload")
                (chunk_options rnd filename folder_id total (k + 1) (nth_chunk rest 0)) s)
    as H.
  destruct (request World io fuel "POST" _ _ s) as [[r s1] l1]. cbn [fst snd] in H.
  destruct r as [x|e]; [|exact H].
  specialize (IH (drop (Z.to_nat chunk_size) rest) (k + 1) (Some x) s1).
  destruct (upload_loop World io steps _ _ _ _ _ _ _ _ _ s1) as [[r' s2] l2].
  cbn [fst snd] in *. by eapply same_credentials_trans.
Qed.

(** Whatever the server does, a session request, a refresh step and an
    upload leave the session's server URL and every header other than
    [x-openrelik-access-token] as they found them; the refresh token in
    particular is never replaced or dropped. *)
Theorem session_keeps_credentials (fuel : nat) (s : State World) :
  (∀ m u kw, same_credentials (session s) (session (request World io fuel m u kw s).1.2)) ∧
  same_credentials (session s) (session (_refresh_token World io fuel s).1.2) ∧
  (∀ self fs rnd file_path folder_id,
     same_credentials (session s)
       (session (upload_file World io fuel self fs rnd file_path folder_id s).1.2)) ∧
  (∀ ses', same_credentials (session s) ses' →
     headers ses' !! "x-openrelik-refresh-token"
       = headers (session s) !! "x-openrelik-refresh-token").
Proof.
  split; [intros; apply request_credentials|].
  split; [apply refresh_credentials|]. split.
  - intros self fs rnd file_path folder_id. unfold upload_file.
    destruct (fs !! file_path) as [data|]; [|apply same_credentials_refl].
    unfold bind at 1, folder_check.
    assert (∃ r0 s1 l1,
              (if truthy folder_id
               then bind World
                      (session_get World io fuel
                         (base_url self +:+ "/folders/" +:+ str_opt folder_id))
                      (fun response => ret World (Some response))
               else ret World None) s = (r0, s1, l1) ∧
              same_credentials (session s) (session s1))
      as (r0 & s1 & l1 & -> & Hs1).
    { destruct (truthy folder_id).
      - unfold bind, session_get.
        pose proof (request_credentials fuel "GET"
                      (base_url self +:+ "/folders/" +:+ str_opt folder_id)
                      get_options s) as H.
        destruct (request World io fuel "GET" _ _ s) as [[[r|e] s1] l1];
          eexists _, _, _; split; try reflexivity; exact H.
      - eexists _, _, _. split; [reflexivity|apply same_credentials_refl]. }
    destruct r0 as [response|e]; [|exact Hs1].
    destruct (folder_missing response); [exact Hs1|].
    unfold bind.
    pose proof (upload_loop_credentials (S (length data)) fuel self rnd
                  (path_name file_path) folder_id
                  (math_ceil (int_true_div (Z.of_nat (length data)) chunk_size))
                  data 0 response s1) as Hloop.
    destruct (upload_loop World io _ _ _ _ _ _ _ _ _ _ s1) as [[[response'|e] s2] l2];
      cbn [fst snd] in Hloop.
    + rewrite file_id_of_pure. cbn [fst snd].
      by eapply same_credentials_trans.
    + cbn [fst snd]. by eapply same_credentials_trans.
  - intros ses' [_ H]. symmetry. by apply H.
Qed.

End Credentials.

Lemma assoc_get_absent (d : list (string * PyVal)) (key : string) :
  Forall (fun kv => kv.1 ≠ key) d → assoc_get d key = PNone.
Proof.
  induction 1 as [|[k v] d' Hk _ IH]; [done|]. cbn in *.
  by destruct (decide (k = key)).
Qed.

Section Discipline.

Context {World : Type}.
Variable io :
  World -> TokenRefreshSession -> string -> string -> Options ->
  Result Response * World.

(** Whatever the server does and however deep the refresh steps nest, the
    only exchanges a session request makes are the request itself, with
    its own method, URL and keyword arguments, and [GET]s of
    [api_server_url + "/auth/refresh"]. *)
Theorem request_sends_only_itself_and_refresh
    (fuel : nat) (m u : string) (kw : Options) (s : State World) :
  Forall (fun x => x = (m, u, kw) ∨ x = refresh_exchange (session s))
         (all_wire_requests (request World io fuel m u kw s).2).
Proof.
  revert m u kw s. induction fuel as [|fuel IH]; intros m u kw s; [by constructor|].
  rewrite request_run.
  destruct (io (world s) (session s) m u kw) as [[resp|e] w1]; cbn zeta.
  2: { cbn. repeat constructor. }
  destruct (status_code resp =? 401).
  2: { cbn. repeat constructor. }
  rewrite refresh_run.
  set (s1 := Build_State (session s) w1).
  specialize (IH "GET" (api_server_url (session s1) +:+ "/auth/refresh") get_options s1).
  unfold session_get.
  destruct (request World io fuel "GET" _ get_options s1) as [[r s2] l2].
  cbn [snd] in IH.
  assert (Forall (fun x => x = (m, u, kw) ∨ x = refresh_exchange (session s))
            (all_wire_requests l2)) as IH'.
  { eapply Forall_impl; [exact IH|]. cbn. intros x [H|H]; right; exact H. }
  destruct r as [resp2|e2].
  - destruct (ok resp2); [destruct (json_body resp2) as [[]|]|].
    all: try (destruct (io _ _ m u kw) as [r3 w3]).
    all: unfold all_wire_requests in *; cbn [flat_map wire_requests snd app];
      rewrite ?app_nil_r, ?flat_map_app; cbn [flat_map wire_requests app];
      rewrite ?app_nil_r;
      repeat (apply Forall_cons; split; [by left|]);
      repeat (apply Forall_app; split); auto; repeat constructor; by left.
  - destruct (is_RequestException e2).
    all: unfold all_wire_requests in *; cbn [flat_map wire_requests snd app];
      rewrite ?app_nil_r, ?flat_map_app; cbn [flat_map wire_requests app];
      rewrite ?app_nil_r;
      repeat (apply Forall_cons; split; [by left|]);
      repeat (apply Forall_app; split); auto; repeat constructor; by left.
Qed.

Lemma request_direct
    (fuel : nat) (m u : string) (kw : Options) (s : State World)
    (r1 : Result Response) (w1 : World) :
  io (world s) (session s) m u kw = (r1, w1) →
  (∀ resp, r1 = Return resp → status_code resp ≠ 401) →
  request World io (S fuel) m u kw s
    = (r1, Build_State (session s) w1,
       [Request m u kw [Wire m u kw (headers (session s)) r1] r1]).
Proof.
  intros Hio Hno. rewrite request_run, Hio. cbn zeta.
  destruct r1 as [resp|e]; [|done].
  by destruct (Z.eqb_spec (status_code resp) 401) as [H401|_];
    [destruct (Hno resp)|].
Qed.

(** A request whose first exchange ends in anything but a 401 response, be
    it another status or an exception of the transport, yields exactly that
    outcome after this one exchange: no refresh step, no retry, and the
    session as it was. *)
Theorem request_passes_through
    (fuel : nat) (m u : string) (kw : Options) (s : State World)
    (r1 : Result Response) (w1 : World) :
  io (world s) (session s) m u kw = (r1, w1) →
  (∀ resp, r1 = Return resp → status_code resp ≠ 401) →
  let run := request World io (S fuel) m u kw s in
  run.1.1 = r1 ∧
  session run.1.2 = session s ∧ world run.1.2 = w1 ∧
  all_wire_requests run.2 = [(m, u, kw)] ∧
  foldr (fun e n => refresh_steps e + n)%nat 0%nat run.2 = 0%nat.
Proof.
  intros Hio Hno run. unfold run.
  by rewrite (request_direct fuel m u kw s r1 w1 Hio Hno).
Qed.

(** A 401, then a refresh answered with a JSON object: the retry goes out
    with the new access token among the session headers, the refresh token
    still beside it, and the token stays in the session afterwards.  The
    whole request takes three exchanges. *)
Theorem request_retries_with_new_token
    (fuel : nat) (m u : string) (kw : Options) (s : State World)
    (resp : Response) (w1 : World) (refreshed : Response) (w2 : World)
    (d : list (string * PyVal)) (r3 : Result Response) (w3 : World) :
  let refresh_url := api_server_url (session s) +:+ "/auth/refresh" in
  let tok := assoc_get d "new_access_token" in
  let ses' := {| api_server_url := api_server_url (session s);
                 headers := <["x-openrelik-access-token" := tok]>
                              (headers (session s)) |} in
  io (world s) (session s) m u kw = (Return resp, w1) →
  status_code resp = 401 →
  io w1 (session s) "GET" refresh_url get_options = (Return refreshed, w2) →
  ok refreshed = true →
  json_body refreshed = Some (PDict d) →
  io w2 ses' m u kw = (r3, w3) →
  request World io (S (S fuel)) m u kw s
    = (r3, Build_State ses' w3,
       [Request m u kw
          [Wire m u kw (headers (session s)) (Return resp);
           Refresh
             [Request "GET" refresh_url get_options
                [Wire "GET" refresh_url get_options (headers (session s))
                   (Return refreshed)]
                (Return refreshed)]
             (Return true);
           Wire m u kw (headers ses') r3]
          r3]) ∧
  headers ses' !! "x-openrelik-access-token" = Some tok ∧
  headers ses' !! "x-openrelik-refresh-token"
    = headers (session s) !! "x-openrelik-refresh-token".
Proof.
  intros refresh_url tok ses' Hio H401 Href Hok Hjson Hretry.
  split; [|split; [apply lookup_insert_eq|by apply lookup_insert_ne]].
  rewrite request_run, Hio. cbn zeta. apply Z.eqb_eq in H401 as ->.
  rewrite refresh_run. unfold session_get. cbn [session]. fold refresh_url.
  rewrite (request_direct fuel "GET" refresh_url get_options
             (Build_State (session s) w1) (Return refreshed) w2 Href).
  2: { intros ? [= <-] H401. unfold ok in Hok. rewrite H401 in Hok. done. }
  rewrite Hok, Hjson. unfold with_access_token. cbn [session world].
  fold tok. fold ses'. by rewrite Hretry.
Qed.

(** Two bodies the refresh step does not expect.  A JSON object without
    the key [new_access_token] still counts as a success: the step returns
    [True] and the access-token header becomes [None].  A JSON body that is
    not an object makes the step raise [AttributeError], which
    [except RequestException] does not catch, and leaves the headers as
    they were. *)
Theorem refresh_on_unexpected_body
    (fuel : nat) (s : State World) (refreshed : Response) (w1 : World) :
  let refresh_url := api_server_url (session s) +:+ "/auth/refresh" in
  io (world s) (session s) "GET" refresh_url get_options = (Return refreshed, w1) →
  ok refreshed = true →
  (∀ d, json_body refreshed = Some (PDict d) →
        Forall (fun kv => kv.1 ≠ "new_access_token") d →
        (_refresh_token World io (S fuel) s).1.1 = Return true ∧
        headers (session (_refresh_token World io (S fuel) s).1.2)
          !! "x-openrelik-access-token" = Some PNone) ∧
  (∀ v, json_body refreshed = Some v → (∀ d, v ≠ PDict d) →
        (_refresh_token World io (S fuel) s).1.1 = Raise AttributeError ∧
        session (_refresh_token World io (S fuel) s).1.2 = session s).
Proof.
  intros refresh_url Hio Hok.
  assert (session_get World io (S fuel) refresh_url s
          = (Return refreshed, Build_State (session s) w1,
             [Request "GET" refresh_url get_options
                [Wire "GET" refresh_url get_options (headers (session s))
                   (Return refreshed)] (Return refreshed)])) as Hget.
  { apply request_direct; [done|].
    intros ? [= <-] H401. unfold ok in Hok. by rewrite H401 in Hok. }
  split.
  - intros d Hjson Hkeys. rewrite refresh_run. fold refresh_url.
    rewrite Hget, Hok, Hjson. cbn [fst snd]. split; [done|]. cbn.
    rewrite lookup_insert_eq. f_equal. by apply assoc_get_absent.
  - intros v Hjson Hv. rewrite refresh_run. fold refresh_url.
    rewrite Hget, Hok, Hjson. destruct v; try done. by destruct (Hv d).
Qed.

(** When the server never answers 401 to a [GET] of [auth/refresh], stack
    for two nested calls is all a request ever needs: with more it does the
    same, and it makes at most three exchanges. *)
Theorem request_needs_two_levels
    (fuel : nat) (m u : string) (kw : Options) (s : State World) :
  (∀ w ses o r w',
     io w ses "GET" (api_server_url ses +:+ "/auth/refresh") o = (Return r, w') →
     status_code r ≠ 401) →
  request World io (S (S fuel)) m u kw s = request World io 2 m u kw s ∧
  (length (all_wire_requests (request World io (S (S fuel)) m u kw s).2) ≤ 3)%nat.
Proof.
  intros Hrefresh.
  assert (∀ f s1, _refresh_token World io (S f) s1 = _refresh_token World io 1 s1)
    as Hsame.
  { intros f s1. rewrite !refresh_run. unfold session_get.
    destruct (io (world s1) (session s1) "GET"
                (api_server_url (session s1) +:+ "/auth/refresh") get_options)
      as [r0 w0] eqn:Hio.
    rewrite !(request_direct _ _ _ _ _ r0 w0 Hio); [done|..].
    all: intros resp ->; by eapply Hrefresh. }
  split.
  - rewrite !request_run. destruct (io (world s) (session s) m u kw) as [[resp|e] w1];
      cbn zeta; [|done].
    destruct (status_code resp =? 401); [|done]. by rewrite Hsame.
  - rewrite request_run. destruct (io (world s) (session s) m u kw) as [[resp|e] w1];
      cbn zeta; [|cbn; lia].
    destruct (status_code resp =? 401); [|cbn; lia].
    destruct (io w1 (session s) "GET"
                (api_server_url (session s) +:+ "/auth/refresh") get_options)
      as [r0 w0] eqn:Hio.
    destruct (refresh_direct io fuel (Build_State (session s) w1) r0 w0 Hio)
      as (rb & s2 & body & -> & _ & Hwire).
    { intros r ->. by eapply Hrefresh. }
    assert (∀ tail r, all_wire_requests
                        [Request m u kw
                           (Wire m u kw (headers (session s)) (Return resp)
                              :: Refresh body rb :: tail) r]
                      = (m, u, kw) :: all_wire_requests body ++ all_wire_requests tail)
      as Hflat.
    { intros. unfold all_wire_requests. cbn. by rewrite app_nil_r. }
    destruct rb as [[|]|e]; [destruct (io _ _ m u kw) as [r3 w3]|..];
      cbn [snd app]; rewrite ?Hflat, ?Hwire;
      try (change [Refresh body ?x] with ([Refresh body x] ++ []));
      cbn; try lia.
    all: unfold all_wire_requests in *; cbn; rewrite ?app_nil_r, Hwire; cbn; lia.
Qed.

End Discipline.

(** ** More on uploads *)

Lemma concat_chunks (data : list byte) (j : nat) :
  concat (nth_chunk data <$> seq 0 j) = take (j * Z.to_nat chunk_size) data.
Proof.
  induction j as [|j IH]; [by rewrite take_0|].
  rewrite seq_S, fmap_app, concat_app, IH. cbn [fmap list_fmap concat plus].
  rewrite app_nil_r. unfold nth_chunk. rewrite take_take_drop. f_equal. lia.
Qed.

Lemma chunk_count_covers (len : Z) (j : nat) :
  0 ≤ len → Z.of_nat j = ceil_div len chunk_size →
  len ≤ Z.of_nat (j * Z.to_nat chunk_size) ∧
  ∀ i : nat, (i < j)%nat → Z.of_nat (i * Z.to_nat chunk_size) < len.
Proof.
  intros Hlen Hj. pose proof chunk_size_pos as Hc.
  rewrite ceil_div_mod in Hj by done.
  pose proof (Z.div_mod len chunk_size ltac:(lia)) as Hdm.
  pose proof (Z.mod_pos_bound len chunk_size Hc) as Hb.
  pose proof (Z.div_pos len chunk_size Hlen Hc) as Hq.
  assert (∀ n : nat, Z.of_nat (n * Z.to_nat chunk_size) = Z.of_nat n * chunk_size)
    as Hmul by (intros; lia).
  split.
  - rewrite Hmul, Hj. destruct (Z.eqb_spec (len mod chunk_size) 0); nia.
  - intros i Hi. rewrite Hmul.
    destruct (Z.eqb_spec (len mod chunk_size) 0); nia.
Qed.

Section UploadMore.

Context {World : Type}.
Variable io :
  World -> TokenRefreshSession -> string -> string -> Options ->
  Result Response * World.

Variables (fuel : nat) (self : APIClient) (fs : FileSystem) (rnd : Entropy)
          (file_path : string) (folder_id : option Z).

Local Abbreviation upload := (upload_file World io fuel self fs rnd file_path folder_id).

(** The chunks of an upload put the file back together.  When the file
    exists, the folder check does not answer 404 and [upload_file] returns,
    the payloads of the chunk [POST]s, one after the other, are the bytes
    of the file, and each payload has between 1 and 1,024,000 bytes. *)
Theorem upload_file_chunks_reassemble (data : list byte) (s : State World)
    (r0 : option Response) (s1 : State World) (l1 : list event)
    (v : PyVal) (s' : State World) (log : list event) :
  fs !! file_path = Some data →
  folder_check World io fuel self folder_id s = (Return r0, s1, l1) →
  folder_missing r0 = false →
  upload s = (Return v, s', log) →
  concat (chunk_bytes <$> chunk_posts log) = data ∧
  Forall (fun kw => 1 ≤ Z.of_nat (length (chunk_bytes kw)) ≤ 1024000)
         (chunk_posts log).
Proof.
  intros Hfile Hcheck Hmiss Hrun.
  destruct (upload_file_posts io fuel self fs rnd file_path folder_id data s Hfile)
    as (j & Hposts & _ & Hdone).
  rewrite Hrun in Hposts, Hdone. cbn [fst snd] in *. rewrite Hcheck in Hdone.
  cbn [fst] in Hdone.
  destruct (Hdone v eq_refl) as [(_ & r & [= <-] & Hr)|(Hj & _)]; [congruence|].
  destruct (chunk_count_covers (Z.of_nat (length data)) j ltac:(lia) Hj)
    as [Hcover Hinside].
  pose proof chunk_size_pos as Hc.
  rewrite Hposts. split.
  - rewrite <- list_fmap_compose.
    change (concat (nth_chunk data <$> seq 0 j) = data).
    rewrite concat_chunks. apply take_ge. lia.
  - apply Forall_fmap, Forall_forall. intros i Hi. cbn.
    apply elem_of_seq in Hi as [_ Hi]. specialize (Hinside i ltac:(lia)).
    unfold nth_chunk. rewrite length_take, length_drop.
    change 1024000 with chunk_size. lia.
Qed.

(** The log of the chunk loop holds chunk [POST]s only. *)
Lemma upload_loop_only_posts (steps : nat) (filename : string) (total : Z)
    (rest : list byte) (k : Z) (resp : option Response) (s : State World) :
  let l := (upload_loop World io steps fuel self rnd filename folder_id total rest k
              resp s).2 in
  length (chunk_posts l) = length l.
Proof.
  revert rest k resp s. induction steps as [|steps IH]; intros rest k resp s; [done|].
  cbn zeta. rewrite upload_loop_run. destruct rest as [|b rest'] eqn:Hrest; [done|].
  rewrite <- Hrest. unfold session_post.
  pose proof (request_log io fuel "POST" (base_url self +:+ "/files/upload")
                (chunk_options rnd filename folder_id total (k + 1) (nth_chunk rest 0)) s)
    as Hlog. cbn zeta in Hlog.
  destruct (request World io fuel "POST" _ _ s) as [[r s1] l1]. cbn [fst snd] in Hlog.
  destruct Hlog as [(_ & -> & ->)|(_ & inner & ->)]; [done|].
  destruct r as [x|e]; [|done].
  specialize (IH (drop (Z.to_nat chunk_size) rest) (k + 1) (Some x) s1).
  cbn zeta in IH.
  destruct (upload_loop World io steps _ _ _ _ _ _ _ _ _ s1) as [[r' s2] l2].
  cbn [snd] in *. rewrite chunk_posts_app, !length_app, IH. done.
Qed.

(** A folder identifier that is [None] or [0] counts as not given: no
    folder is looked up, so everything the upload does is chunk [POST]s,
    and each of them still carries [str(folder_id)] as its [folder_id]
    parameter, that is ["None"] or ["0"]. *)
Theorem upload_file_without_folder (data : list byte) (s : State World) :
  fs !! file_path = Some data →
  truthy folder_id = false →
  let log := (upload s).2 in
  length (chunk_posts log) = length log ∧
  Forall (fun kw => param "folder_id" kw = Some (str_opt folder_id)) (chunk_posts log) ∧
  (folder_id = None ∨ folder_id = Some 0) ∧
  (str_opt folder_id = "None" ∨ str_opt folder_id = "0").
Proof.
  intros Hfile Hfalsy log.
  assert (folder_id = None ∨ folder_id = Some 0) as Hcases.
  { destruct folder_id as [z|]; [|by left]. right. f_equal. cbn in Hfalsy.
    destruct (Z.eqb_spec z 0); [done|discriminate]. }
  split; [|split; [|split; [done|]]].
  - unfold log.
    rewrite (upload_file_run io fuel self rnd folder_id fs file_path data s Hfile).
    unfold folder_check. rewrite Hfalsy. cbn [ret folder_missing].
    pose proof (upload_loop_only_posts (S (length data)) (path_name file_path)
                  (math_ceil (int_true_div (Z.of_nat (length data)) chunk_size))
                  data 0 None s) as Hloop. cbn zeta in Hloop.
    destruct (upload_loop World io _ _ _ _ _ _ _ _ _ _ s) as [[[response'|e] s2] l2];
      exact Hloop.
  - destruct (upload_file_posts io fuel self fs rnd file_path folder_id data s Hfile)
      as (j & Hposts & _). unfold log. rewrite Hposts.
    apply Forall_fmap, Forall_forall. by intros i _.
  - destruct Hcases as [->| ->]; [by left|by right].
Qed.

(** An empty file sends no chunk.  What [upload_file] then yields is read
    off the response of the folder check, which is still in [response]:
    [-1] without a folder identifier, [-1] on a 404, and otherwise the
    [id] field of the folder's response if its status is 201 and [-1] if
    not. *)
Theorem upload_file_empty (s : State World) :
  fs !! file_path = Some [] →
  chunk_posts (upload s).2 = [] ∧
  upload s =
    (let '(r0, s1, l1) := folder_check World io fuel self folder_id s in
     match r0 with
     | Raise e => (Raise e, s1, l1)
     | Return response =>
         (if folder_missing response then Return (PInt (-1))
          else file_id_value response, s1, l1)
     end) ∧
  (truthy folder_id = false → upload s = (Return (PInt (-1)), s, [])).
Proof.
  intros Hfile.
  destruct (upload_file_posts io fuel self fs rnd file_path folder_id [] s Hfile)
    as (j & Hposts & Hle & _).
  cbn [length] in Hle. rewrite ceil_div_0 in Hle by apply chunk_size_pos.
  assert (j = 0%nat) as -> by lia.
  assert (upload s =
    (let '(r0, s1, l1) := folder_check World io fuel self folder_id s in
     match r0 with
     | Raise e => (Raise e, s1, l1)
     | Return response =>
         (if folder_missing response then Return (PInt (-1))
          else file_id_value response, s1, l1)
     end)) as Hrun.
  { rewrite (upload_file_run io fuel self rnd folder_id fs file_path [] s Hfile).
    destruct (folder_check World io fuel self folder_id s) as [[[response|e] s1] l1];
      [|done].
    destruct (folder_missing response); [done|].
    rewrite upload_loop_run. by rewrite app_nil_r. }
  split; [exact Hposts|]. split; [exact Hrun|].
  intros Hfalsy. rewrite Hrun. unfold folder_check. by rewrite Hfalsy.
Qed.

End UploadMore.

Section Unchecked.

Context {World : Type}.
Variable io :
  World -> TokenRefreshSession -> string -> string -> Options ->
  Result Response * World.

(** The statuses of the chunk responses do not steer the upload.  Against
    a server that answers every exchange with some response other than a
    401, failures such as 500 included, an upload without folder check
    posts every chunk of the file; and if no answer has status 201 the
    result is [-1]. *)
Theorem upload_file_posts_all_chunks_whatever_the_status
    (fuel : nat) (self : APIClient) (fs : FileSystem) (rnd : Entropy)
    (file_path : string) (folder_id : option Z) (data : list byte)
    (s : State World) :
  (∀ w ses m u kw, ∃ resp w',
     io w ses m u kw = (Return resp, w') ∧ status_code resp ≠ 401) →
  fs !! file_path = Some data →
  truthy folder_id = false →
  let run := upload_file World io (S fuel) self fs rnd file_path folder_id s in
  Z.of_nat (length (chunk_posts run.2))
    = ceil_div (Z.of_nat (length data)) chunk_size ∧
  (∃ v, run.1.1 = file_id_value v) ∧
  ((∀ w ses m u kw resp w',
      io w ses m u kw = (Return resp, w') → status_code resp ≠ 201) →
   run.1.1 = Return (PInt (-1))).
Proof.
  intros Haccept Hfile Hfalsy run.
  destruct (upload_file_accepted io Haccept fuel self fs rnd file_path folder_id data s
              Hfile) as [(_ & _ & r & Hcheck & Hmiss)|(Hcount & rl & Hrun & Hrl)].
  { unfold folder_check in Hcheck. rewrite Hfalsy in Hcheck.
    injection Hcheck as <-. discriminate. }
  fold run in Hcount, Hrun. split; [exact Hcount|]. split; [eauto|].
  intros Hno201. rewrite Hrun.
  destruct Hrl as [->|(r & w & ses & m & u & kw & w' & -> & Hio)]; [done|].
  unfold file_id_value, final_check.
  destruct (Z.eqb_spec (status_code r) 201) as [H201|_];
    [by destruct (Hno201 _ _ _ _ _ _ _ Hio)|].
  by rewrite andb_false_r.
Qed.

(** [folder_exists] and the folder check of [upload_file] ask the same
    question of the server and read the answer differently.  On one and the
    same response to [GET base_url/folders/<id>], [folder_exists] returns
    whether the status is 200 and never raises, while [upload_file] gives
    up only on a 404: on any status that is neither 200 nor 404 the folder
    is reported as not existing and the upload goes on to its chunks. *)
Theorem folder_exists_and_upload_check
    (fuel : nat) (self : APIClient) (folder_id : Z) (s : State World)
    (r : Response) (s1 : State World) (l1 : list event) :
  folder_id ≠ 0 →
  session_get World io fuel (base_url self +:+ "/folders/" +:+ str folder_id) s
    = (Return r, s1, l1) →
  folder_exists World io fuel self folder_id s
    = (Return (status_code r =? 200), s1, l1) ∧
  folder_check World io fuel self (Some folder_id) s = (Return (Some r), s1, l1) ∧
  (folder_missing (Some r) = true ↔ status_code r = 404) ∧
  (status_code r ≠ 200 → status_code r ≠ 404 →
   (folder_exists World io fuel self folder_id s).1.1 = Return false ∧
   ∀ fs rnd file_path data,
     fs !! file_path = Some data →
     upload_file World io fuel self fs rnd file_path (Some folder_id) s =
     let '(rl, s2, l2) :=
       upload_loop World io (S (length data)) fuel self rnd (path_name file_path)
         (Some folder_id)
         (math_ceil (int_true_div (Z.of_nat (length data)) chunk_size))
         data 0 (Some r) s1 in
     match rl with
     | Raise e => (Raise e, s2, l1 ++ l2)
     | Return response' => (file_id_value response', s2, l1 ++ l2)
     end).
Proof.
  intros Hne Hget.
  assert (folder_exists World io fuel self folder_id s
          = (Return (status_code r =? 200), s1, l1)) as Hexists.
  { unfold folder_exists, bind. rewrite Hget. cbn. by rewrite app_nil_r. }
  assert (folder_check World io fuel self (Some folder_id) s
          = (Return (Some r), s1, l1)) as Hcheck.
  { unfold folder_check, truthy. destruct (Z.eqb_spec folder_id 0); [done|].
    cbn [negb str_opt]. unfold bind. rewrite Hget. cbn. by rewrite app_nil_r. }
  split; [exact Hexists|]. split; [exact Hcheck|]. split.
  - cbn. apply Z.eqb_eq.
  - intros H200 H404. split.
    + rewrite Hexists. cbn. by destruct (Z.eqb_spec (status_code r) 200).
    + intros fs rnd file_path data Hfile.
      rewrite (upload_file_run io fuel self rnd (Some folder_id) fs file_path data s
                 Hfile), Hcheck.
      cbn [folder_missing]. by destruct (Z.eqb_spec (status_code r) 404).
Qed.

(** The two operations that create something and return its identifier
    wait for different status codes: [create_subfolder] for 201 and
    [create_workflow] for 200.  On that status each returns
    [response.json().get("id")], which is [None] when the object has no
    such key; on any other status, the other operation's success code
    included, each raises [RuntimeError]. *)
Theorem creators_success_codes
    (fuel : nat) (self : APIClient) (folder_id : Z) (display_name : string)
    (file_ids : list Z) (template_id : option Z) (s : State World) :
  (∀ r s1 l1,
     session_post World io fuel
       (base_url self +:+ "/folders/" +:+ str folder_id +:+ "/folders")
       (json_options (PDict [("display_name", PStr display_name)])) s
       = (Return r, s1, l1) →
     create_subfolder World io fuel self folder_id display_name s
       = (if status_code r =? 201 then json_field r "id"
          else Raise (RuntimeError "Error creating subfolder."), s1, l1) ∧
     (status_code r = 200 →
      (create_subfolder World io fuel self folder_id display_name s).1.1
        = Raise (RuntimeError "Error creating subfolder."))) ∧
  (∀ r s1 l1,
     session_post World io fuel
       (base_url self +:+ "/folders/" +:+ str folder_id +:+ "/workflows")
       (json_options
          (PDict [("folder_id", PInt folder_id);
                  ("file_ids", PList (PInt <$> file_ids));
                  ("template_id", from_option PInt PNone template_id)])) s
       = (Return r, s1, l1) →
     create_workflow World io fuel self folder_id file_ids template_id s
       = (if status_code r =? 200 then json_field r "id"
          else Raise (RuntimeError "Error creating workflow."), s1, l1) ∧
     (status_code r = 201 →
      (create_workflow World io fuel self folder_id file_ids template_id s).1.1
        = Raise (RuntimeError "Error creating workflow."))) ∧
  (∀ r d, json_body r = Some (PDict d) → Forall (fun kv => kv.1 ≠ "id") d →
          json_field r "id" = Return PNone).
Proof.
  split; [|split].
  - intros r s1 l1 Hpost.
    assert (create_subfolder World io fuel self folder_id display_name s
            = (if status_code r =? 201 then json_field r "id"
               else Raise (RuntimeError "Error creating subfolder."), s1, l1)) as Hrun.
    { unfold create_subfolder, bind at 1. rewrite Hpost.
      destruct (status_code r =? 201); [|cbn; by rewrite app_nil_r].
      unfold bind, response_json, json_field.
      destruct (json_body r) as [[]|]; cbn; by rewrite ?app_nil_r. }
    split; [exact Hrun|]. intros H200. rewrite Hrun, H200. done.
  - intros r s1 l1 Hpost.
    assert (create_workflow World io fuel self folder_id file_ids template_id s
            = (if status_code r =? 200 then json_field r "id"
               else Raise (RuntimeError "Error creating workflow."), s1, l1)) as Hrun.
    { unfold create_workflow, bind at 1. rewrite Hpost.
      destruct (status_code r =? 200); [|cbn; by rewrite app_nil_r].
      unfold bind, response_json, json_field.
      destruct (json_body r) as [[]|]; cbn; by rewrite ?app_nil_r. }
    split; [exact Hrun|]. intros H201. rewrite Hrun, H201. done.
  - intros r d Hjson Hkeys. unfold json_field. rewrite Hjson.
    by rewrite assoc_get_absent.
Qed.

End Unchecked.

(** ** Chunks on the wire *)

Lemma post_exchanges_app (l1 l2 : list event) :
  post_exchanges (l1 ++ l2) = post_exchanges l1 ++ post_exchanges l2.
Proof.
  unfold post_exchanges, all_wire_requests. by rewrite flat_map_app, List.filter_app.
Qed.

Lemma is_post_post (u : string) (kw : Options) : is_post ("POST", u, kw) = true.
Proof. reflexivity. Qed.

Lemma no_post_among_gets (l : list (string * string * Options)) :
  Forall (fun x => x.1.1 = "GET") l → List.filter is_post l = [].
Proof.
  induction 1 as [|x l Hx _ IH]; [done|]. cbn. rewrite IH. unfold is_post.
  rewrite Hx. done.
Qed.

Section Wire.

Context {World : Type}.
Variable io :
  World -> TokenRefreshSession -> string -> string -> Options ->
  Result Response * World.

Lemma get_request_sends_no_post (fuel : nat) (u : string) (kw : Options)
    (s : State World) :
  post_exchanges (request World io fuel "GET" u kw s).2 = [].
Proof.
  apply no_post_among_gets.
  eapply Forall_impl; [apply request_wire_methods|]. cbn. by intros x [H|H].
Qed.

Lemma refresh_sends_no_post (fuel : nat) (s : State World) :
  post_exchanges (_refresh_token World io fuel s).2 = [].
Proof.
  rewrite refresh_run. unfold session_get.
  pose proof (get_request_sends_no_post fuel
                (api_server_url (session s) +:+ "/auth/refresh") get_options s) as H.
  destruct (request World io fuel "GET" _ get_options s) as [[r s1] l1].
  cbn [snd] in H.
  assert (∀ tail res, post_exchanges tail = [] →
            post_exchanges [Refresh (l1 ++ tail) res] = []) as Hnode.
  { intros tail res Htail. unfold post_exchanges, all_wire_requests in *.
    cbn [flat_map wire_requests]. rewrite app_nil_r, flat_map_app, List.filter_app.
    by rewrite H, Htail. }
  destruct r as [resp|e].
  - destruct (ok resp); [destruct (json_body resp) as [[]|]|].
    all: try (apply Hnode; reflexivity).
    all: rewrite <- (app_nil_r l1); apply Hnode; reflexivity.
  - destruct (is_RequestException e); [by apply Hnode|].
    rewrite <- (app_nil_r l1). by apply Hnode.
Qed.

(** A [POST] through the session reaches the wire once, or twice when it
    was retried after a refresh, and nothing else is posted. *)
Lemma post_request_exchanges (fuel : nat) (u : string) (kw : Options)
    (s : State World) :
  ∃ n : nat,
    (n ≤ 2)%nat ∧ (fuel ≠ 0%nat → 1 ≤ n)%nat ∧
    post_exchanges (request World io fuel "POST" u kw s).2
      = replicate n ("POST", u, kw).
Proof.
  destruct fuel as [|fuel]; [exists 0%nat; split; [lia|split; [done|reflexivity]]|].
  rewrite request_run.
  destruct (io (world s) (session s) "POST" u kw) as [[resp|e] w1]; cbn zeta.
  2: { exists 1%nat. split; [lia|split; [lia|reflexivity]]. }
  destruct (status_code resp =? 401).
  2: { exists 1%nat. split; [lia|split; [lia|reflexivity]]. }
  pose proof (refresh_sends_no_post fuel (Build_State (session s) w1)) as Href.
  destruct (_refresh_token World io fuel _) as [[rb s2] l2]. cbn [snd] in Href.
  assert (∀ tail r, post_exchanges
                      [Request "POST" u kw
                         (Wire "POST" u kw (headers (session s)) (Return resp)
                            :: l2 ++ tail) r]
                    = ("POST", u, kw) :: post_exchanges tail) as Hnode.
  { intros tail r. unfold post_exchanges, all_wire_requests in *.
    cbn [flat_map wire_requests app]. rewrite app_nil_r, flat_map_app.
    cbn [List.filter]. rewrite is_post_post, List.filter_app, Href. reflexivity. }
  destruct rb as [[|]|e].
  - destruct (io (world s2) (session s2) "POST" u kw) as [r3 w3].
    exists 2%nat. cbn [snd]. rewrite Hnode. split; [lia|split; [lia|reflexivity]].
  - exists 1%nat. cbn [snd]. rewrite <- (app_nil_r l2), Hnode.
    split; [lia|split; [lia|reflexivity]].
  - exists 1%nat. cbn [snd]. rewrite <- (app_nil_r l2), Hnode.
    split; [lia|split; [lia|reflexivity]].
Qed.

Variables (fuel : nat) (self : APIClient) (rnd : Entropy) (folder_id : option Z).

Lemma upload_loop_wire (steps : nat) (filename : string) (total : Z)
    (rest : list byte) (k : Z) (resp : option Response) (s : State World) :
  let l := (upload_loop World io steps fuel self rnd filename folder_id total rest k
              resp s).2 in
  ∃ ns : list nat,
    length ns = length (chunk_posts l) ∧
    Forall (fun n => 1 ≤ n ≤ 2)%nat ns ∧
    post_exchanges l
      = concat (zip_with (fun n kw =>
                            replicate n ("POST", base_url self +:+ "/files/upload", kw))
                  ns (chunk_posts l)).
Proof.
  revert rest k resp s. induction steps as [|steps IH]; intros rest k resp s;
    [by exists []|].
  cbn zeta. rewrite upload_loop_run. destruct rest as [|b rest'] eqn:Hrest;
    [by exists []|].
  rewrite <- Hrest. unfold session_post.
  pose proof (request_log io fuel "POST" (base_url self +:+ "/files/upload")
                (chunk_options rnd filename folder_id total (k + 1) (nth_chunk rest 0)) s)
    as Hlog. cbn zeta in Hlog.
  destruct (post_request_exchanges fuel (base_url self +:+ "/files/upload")
              (chunk_options rnd filename folder_id total (k + 1) (nth_chunk rest 0)) s)
    as (n & Hn2 & Hn1 & Hwire).
  destruct (request World io fuel "POST" _ _ s) as [[r s1] l1]. cbn [fst snd] in *.
  destruct Hlog as [(_ & -> & ->)|(Hfuel & inner & ->)]; [by exists []|].
  specialize (Hn1 Hfuel).
  destruct r as [x|e].
  - specialize (IH (drop (Z.to_nat chunk_size) rest) (k + 1) (Some x) s1).
    cbn zeta in IH.
    destruct (upload_loop World io steps _ _ _ _ _ _ _ _ _ s1) as [[r' s2] l2].
    cbn [snd] in *. destruct IH as (ns & Hlen & Hns & Hposts).
    exists (n :: ns). rewrite chunk_posts_app, chunk_posts_post, post_exchanges_app.
    cbn [app chunk_posts omap list_omap length zip_with concat].
    rewrite Hwire, Hposts. split; [by rewrite Hlen|]. split; [|done].
    constructor; [lia|done].
  - exists [n]. cbn [snd]. rewrite chunk_posts_post, Hwire. cbn.
    rewrite app_nil_r. split; [done|]. split; [|done]. constructor; [lia|done].
Qed.

(** On the wire, an upload posts nothing but its chunks, in file order:
    every chunk [POST] made through the session shows up once, or twice in
    a row when it was re-issued after a token refresh, always to
    [base_url + "/files/upload"] and with the same parameters and
    payload. *)
Theorem upload_file_wire_posts (fs : FileSystem) (file_path : string)
    (data : list byte) (s : State World) :
  fs !! file_path = Some data →
  let log := (upload_file World io fuel self fs rnd file_path folder_id s).2 in
  ∃ ns : list nat,
    length ns = length (chunk_posts log) ∧
    Forall (fun n => 1 ≤ n ≤ 2)%nat ns ∧
    post_exchanges log
      = concat (zip_with (fun n kw =>
                            replicate n ("POST", base_url self +:+ "/files/upload", kw))
                  ns (chunk_posts log)).
Proof.
  intros Hfile log. unfold log.
  rewrite (upload_file_run io fuel self rnd folder_id fs file_path data s Hfile).
  pose proof (folder_check_posts io fuel self folder_id s) as Hcheck.
  assert (post_exchanges (folder_check World io fuel self folder_id s).2 = [])
    as Hcheck'.
  { unfold folder_check. destruct (truthy folder_id); [|done].
    unfold bind, session_get.
    pose proof (get_request_sends_no_post fuel
                  (base_url self +:+ "/folders/" +:+ str_opt folder_id) get_options s)
      as H.
    destruct (request World io fuel "GET" _ _ s) as [[[r|e] s1] l1];
      cbn [fst snd] in *; unfold ret; cbn [fst snd]; rewrite ?app_nil_r; exact H. }
  destruct (folder_check World io fuel self folder_id s) as [[[response|e] s1] l1];
    cbn [snd] in *.
  2: { exists []. by rewrite Hcheck, Hcheck'. }
  destruct (folder_missing response).
  { exists []. cbn [snd]. by rewrite Hcheck, Hcheck'. }
  destruct (upload_loop_wire (S (length data)) (path_name file_path)
              (math_ceil (int_true_div (Z.of_nat (length data)) chunk_size))
              data 0 response s1) as (ns & Hlen & Hns & Hposts).
  destruct (upload_loop World io _ _ _ _ _ _ _ _ _ _ s1) as [[[response'|e] s2] l2];
    cbn [snd] in *; exists ns;
    by rewrite chunk_posts_app, post_exchanges_app, Hcheck, Hcheck'.
Qed.

End Wire.

(** ** The headers on the wire *)

Lemma all_wire_headers_app (l1 l2 : list event) :
  all_wire_headers (l1 ++ l2) = all_wire_headers l1 ++ all_wire_headers l2.
Proof. apply flat_map_app. Qed.

Lemma same_fixed_headers_trans (a b c : gmap string PyVal) :
  same_fixed_headers a b → same_fixed_headers b c → same_fixed_headers a c.
Proof. intros H1 H2 name Hne. by rewrite H1, H2. Qed.

Section Headers.

Context {World : Type}.
Variable io :
  World -> TokenRefreshSession -> string -> string -> Options ->
  Result Response * World.

Lemma request_wire_headers (fuel : nat) (m u : string) (kw : Options) (s : State World) :
  Forall (same_fixed_headers (headers (session s)))
         (all_wire_headers (request World io fuel m u kw s).2).
Proof.
  revert m u kw s. induction fuel as [|fuel IH]; intros m u kw s; [by constructor|].
  rewrite request_run.
  destruct (io (world s) (session s) m u kw) as [[resp|e] w1]; cbn zeta.
  2: { cbn. by repeat constructor. }
  destruct (status_code resp =? 401).
  2: { cbn. by repeat constructor. }
  set (s1 := Build_State (session s) w1).
  pose proof (refresh_credentials io fuel s1) as [_ Hcred].
  assert (Forall (same_fixed_headers (headers (session s)))
            (all_wire_headers (_refresh_token World io fuel s1).2)) as Href.
  { rewrite refresh_run. unfold session_get.
    specialize (IH "GET" (api_server_url (session s1) +:+ "/auth/refresh")
                  get_options s1).
    destruct (request World io fuel "GET" _ get_options s1) as [[r s2] l2].
    cbn [snd] in IH.
    assert (∀ tail res, all_wire_headers tail = [] →
              all_wire_headers [Refresh (l2 ++ tail) res] = all_wire_headers l2)
      as Hnode.
    { intros tail res Htail. unfold all_wire_headers in *.
      cbn [flat_map wire_headers]. by rewrite app_nil_r, flat_map_app, Htail, app_nil_r. }
    destruct r as [resp2|e2].
    - destruct (ok resp2); [destruct (json_body resp2) as [[]|]|]; cbn [snd].
      all: try (rewrite Hnode by reflexivity; exact IH).
      all: rewrite <- (app_nil_r l2), Hnode by reflexivity; exact IH.
    - destruct (is_RequestException e2); cbn [snd];
        [|rewrite <- (app_nil_r l2)]; rewrite Hnode by reflexivity; exact IH. }
  destruct (_refresh_token World io fuel s1) as [[rb s2] l2]. cbn [fst snd] in *.
  assert (∀ tail r, all_wire_headers
                      [Request m u kw
                         (Wire m u kw (headers (session s)) (Return resp)
                            :: l2 ++ tail) r]
                    = headers (session s) :: all_wire_headers l2 ++ all_wire_headers tail)
    as Hnode.
  { intros tail r. unfold all_wire_headers.
    cbn [flat_map wire_headers app]. by rewrite app_nil_r, flat_map_app. }
  destruct rb as [[|]|e].
  - destruct (io (world s2) (session s2) m u kw) as [r3 w3]. cbn [snd].
    rewrite Hnode. constructor; [done|]. apply Forall_app. split; [done|].
    cbn. by repeat constructor.
  - cbn [snd]. rewrite <- (app_nil_r l2), Hnode. constructor; [done|].
    apply Forall_app. split; [done|constructor].
  - cbn [snd]. rewrite <- (app_nil_r l2), Hnode. constructor; [done|].
    apply Forall_app. split; [done|constructor].
Qed.

Lemma upload_loop_wire_headers (steps fuel : nat) (self : APIClient) (rnd : Entropy)
    (filename : string) (folder_id : option Z) (total : Z) (rest : list byte)
    (k : Z) (resp : option Response) (s : State World) :
  Forall (same_fixed_headers (headers (session s)))
         (all_wire_headers
            (upload_loop World io steps fuel self rnd filename folder_id total rest k
               resp s).2).
Proof.
  revert rest k resp s. induction steps as [|steps IH]; intros rest k resp s;
    [by constructor|].
  rewrite upload_loop_run. destruct rest as [|b rest'] eqn:Hrest; [by constructor|].
  rewrite <- Hrest. unfold session_post.
  pose proof (request_wire_headers fuel "POST" (base_url self +:+ "/files/upload")
                (chunk_options rnd filename folder_id total (k + 1) (nth_chunk rest 0)) s)
    as Hreq.
  pose proof (request_credentials io fuel "POST" (base_url self +:+ "/files/upload")
                (chunk_options rnd filename folder_id total (k + 1) (nth_chunk rest 0)) s)
    as [_ Hcred].
  destruct (request World io fuel "POST" _ _ s) as [[r s1] l1]. cbn [fst snd] in *.
  destruct r as [x|e]; [|exact Hreq].
  specialize (IH (drop (Z.to_nat chunk_size) rest) (k + 1) (Some x) s1).
  destruct (upload_loop World io steps _ _ _ _ _ _ _ _ _ s1) as [[r' s2] l2].
  cbn [snd] in *. rewrite all_wire_headers_app. apply Forall_app. split; [done|].
  eapply Forall_impl; [exact IH|]. intros h Hh.
  by eapply same_fixed_headers_trans.
Qed.

Lemma upload_file_wire_headers (fuel : nat) (self : APIClient) (fs : FileSystem)
    (rnd : Entropy) (file_path : string) (folder_id : option Z) (s : State World) :
  Forall (same_fixed_headers (headers (session s)))
         (all_wire_headers
            (upload_file World io fuel self fs rnd file_path folder_id s).2).
Proof.
  destruct (fs !! file_path) as [data|] eqn:Hfile.
  2: { unfold upload_file. rewrite Hfile. by constructor. }
  rewrite (upload_file_run io fuel self rnd folder_id fs file_path data s Hfile).
  assert (Forall (same_fixed_headers (headers (session s)))
            (all_wire_headers (folder_check World io fuel self folder_id s).2) ∧
          same_fixed_headers (headers (session s))
            (headers (session (folder_check World io fuel self folder_id s).1.2)))
    as [Hcheck Hcred].
  { unfold folder_check. destruct (truthy folder_id); [|by split; [constructor|]].
    unfold bind, session_get.
    pose proof (request_wire_headers fuel "GET"
                  (base_url self +:+ "/folders/" +:+ str_opt folder_id) get_options s)
      as Hreq.
    pose proof (request_credentials io fuel "GET"
                  (base_url self +:+ "/folders/" +:+ str_opt folder_id) get_options s)
      as [_ Hcred].
    destruct (request World io fuel "GET" _ _ s) as [[[r|e] s1] l1];
      cbn [fst snd] in *; unfold ret; cbn [fst snd]; rewrite ?app_nil_r; by split. }
  destruct (folder_check World io fuel self folder_id s) as [[[response|e] s1] l1];
    cbn [fst snd] in *; [|done].
  destruct (folder_missing response); [done|].
  pose proof (upload_loop_wire_headers (S (length data)) fuel self rnd
                (path_name file_path) folder_id
                (math_ceil (int_true_div (Z.of_nat (length data)) chunk_size))
                data 0 response s1) as Hloop.
  assert (∀ l2, Forall (same_fixed_headers (headers (session s1))) (all_wire_headers l2) →
                Forall (same_fixed_headers (headers (session s)))
                  (all_wire_headers (l1 ++ l2))) as Hjoin.
  { intros l2 H2. rewrite all_wire_headers_app. apply Forall_app. split; [done|].
    eapply Forall_impl; [exact H2|]. intros h Hh.
    by eapply same_fixed_headers_trans. }
  destruct (upload_loop World io _ _ _ _ _ _ _ _ _ _ s1) as [[[response'|e] s2] l2];
    cbn [snd] in *; by apply Hjoin.
Qed.

(** The refresh token given to the constructor is in the session headers
    at every HTTP exchange the client ever makes, in requests and uploads
    alike, whatever the server answers and however often the access token
    is replaced; a client built without a key, or with an empty one, never
    sends the header.  The first exchange of a new client goes out without
    an access token. *)
Theorem client_sends_refresh_token_always
    (url version : string) (api_key : option string) (fuel : nat) (w : World) :
  let self := (new_client url api_key version).1 in
  let s := Build_State (new_client url api_key version).2 w in
  let sent := fun h : gmap string PyVal =>
    h !! "x-openrelik-refresh-token"
      = match api_key with
        | Some k => if decide (k = "") then None else Some (PStr k)
        | None => None
        end in
  (∀ m u kw, Forall sent (all_wire_headers (request World io fuel m u kw s).2)) ∧
  (∀ fs rnd file_path folder_id,
     Forall sent
       (all_wire_headers
          (upload_file World io fuel self fs rnd file_path folder_id s).2)) ∧
  (∀ m u kw h,
     head (all_wire_headers (request World io fuel m u kw s).2) = Some h →
     h !! "x-openrelik-access-token" = None).
Proof.
  intros self s sent.
  assert (sent (headers (session s))) as Hs.
  { unfold sent. cbn. destruct api_key as [k|]; [|done].
    destruct (decide (k = "")); [done|]. apply lookup_singleton_eq. }
  assert (∀ h, same_fixed_headers (headers (session s)) h → sent h) as Hsent.
  { intros h Hh. unfold sent. rewrite <- Hh by done. exact Hs. }
  split; [|split].
  - intros m u kw. eapply Forall_impl; [apply request_wire_headers|]. exact Hsent.
  - intros fs rnd file_path folder_id.
    eapply Forall_impl; [apply upload_file_wire_headers|]. exact Hsent.
  - intros m u kw h. destruct fuel as [|fuel']; [done|].
    rewrite request_run.
    assert (headers (session s) !! "x-openrelik-access-token" = None) as Hnone.
    { cbn. destruct api_key as [k|]; [|done].
      destruct (decide (k = "")); [done|]. by apply lookup_singleton_ne. }
    destruct (io (world s) (session s) m u kw) as [[resp|e] w1]; cbn zeta.
    2: { cbn. by intros [= <-]. }
    destruct (status_code resp =? 401).
    2: { cbn. by intros [= <-]. }
    destruct (_refresh_token World io fuel' _) as [[[[|]|e] s2] l2];
      [destruct (io _ _ m u kw) as [r3 w3]|..]; cbn; by intros [= <-].
Qed.

End Headers.

(** ** Where a result comes from *)


Section Outcome.

Context {World : Type}.
Variable io :
  World -> TokenRefreshSession -> string -> string -> Options ->
  Result Response * World.

(** A response that a session request returns was sent by the server in
    answer to that request. *)
Lemma request_result_origin (fuel : nat) (m u : string) (kw : Options)
    (s : State World) (r : Response) :
  (request World io fuel m u kw s).1.1 = Return r →
  ∃ w ses w', io w ses m u kw = (Return r, w') ∧ same_credentials (session s) ses.
Proof.
  destruct fuel as [|fuel]; [done|]. rewrite request_run.
  destruct (io (world s) (session s) m u kw) as [[resp|e] w1] eqn:Hio; cbn zeta;
    [|done].
  destruct (status_code resp =? 401).
  2: { intros [= <-]. exists (world s), (session s), w1.
       split; [done|apply same_credentials_refl]. }
  pose proof (refresh_credentials io fuel (Build_State (session s) w1)) as Hcred.
  destruct (_refresh_token World io fuel _) as [[[[|]|e] s2] l2]; [|done..].
  destruct (io (world s2) (session s2) m u kw) as [r3 w3] eqn:Hio3.
  cbn [fst snd] in *. intros ->. by exists (world s2), (session s2), w3.
Qed.


(** [create_root_folder] leaves [base_url + "/folders/"] in [self.endpoint]
    and posts [{"display_name": name}] there.  It returns a value only
    when the server answered such a [POST] with status 201, and the value
    is the [id] field of that answer; on every other returned response it
    raises [RuntimeError].  Nothing else is posted, and the [POST] reaches
    the wire at most twice. *)
Theorem create_root_folder_contract
    (fuel : nat) (self : APIClient) (display_name : string) (s : State World) :
  let call := create_root_folder World io fuel self display_name in
  let kw := json_options (PDict [("display_name", PStr display_name)]) in
  call.1 = base_url self +:+ "/folders/" ∧
  (∀ v, (call.2 s).1.1 = Return v →
        ∃ r w ses w',
          io w ses "POST" call.1 kw = (Return r, w') ∧
          same_credentials (session s) ses ∧
          status_code r = 201 ∧ json_field r "id" = Return v) ∧
  (∀ r s1 l1,
     session_post World io fuel call.1 kw s = (Return r, s1, l1) →
     status_code r ≠ 201 →
     call.2 s = (Raise (RuntimeError "Error creating root folder."), s1, l1)) ∧
  (∃ n : nat, (n ≤ 2)%nat ∧
     post_exchanges (call.2 s).2 = replicate n ("POST", call.1, kw)).
Proof.
  intros call kw. split; [done|].
  assert (call.2 s =
          let '(r0, s1, l1) := session_post World io fuel call.1 kw s in
          match r0 with
          | Raise e => (Raise e, s1, l1)
          | Return r =>
              (if status_code r =? 201 then json_field r "id"
               else Raise (RuntimeError "Error creating root folder."), s1, l1)
          end) as Hrun.
  { unfold call, create_root_folder. cbn [fst snd]. fold kw. unfold bind at 1.
    destruct (session_post World io fuel _ kw s) as [[[r|e] s1] l1]; [|done].
    destruct (status_code r =? 201); [|cbn; by rewrite app_nil_r].
    unfold bind, response_json, json_field.
    destruct (json_body r) as [[]|]; cbn; by rewrite ?app_nil_r. }
  split; [|split].
  - intros v. rewrite Hrun. unfold session_post.
    pose proof (request_result_origin fuel "POST" call.1 kw s) as Horigin.
    destruct (request World io fuel "POST" call.1 kw s) as [[[r|e] s1] l1];
      cbn [fst snd] in *; [|done].
    destruct (Z.eqb_spec (status_code r) 201) as [H201|_]; [|done].
    intros Hv. destruct (Horigin r eq_refl) as (w & ses & w' & Hio & Hcred).
    by exists r, w, ses, w'.
  - intros r s1 l1 Hpost Hno. rewrite Hrun, Hpost.
    by destruct (Z.eqb_spec (status_code r) 201).
  - destruct (post_request_exchanges io fuel call.1 kw s) as (n & Hn & _ & Hwire).
    exists n. split; [done|]. rewrite Hrun. unfold session_post.
    destruct (request World io fuel "POST" call.1 kw s) as [[[r|e] s1] l1];
      exact Hwire.
Qed.

End Outcome.

(** ** More worked examples *)

(** A 503 is handed back as it is, after one exchange. *)
Lemma request_passes_through_witness :
  let s := demo_state [Return (status_only 503); Return (status_only 200)] in
  let u := "https://relik.example/api/v1/folders/7" in
  let run := request _ scripted 3 "GET" u no_options s in
  scripted (world s) (session s) "GET" u no_options
    = (Return (status_only 503), [Return (status_only 200)]) ∧
  (∀ resp, Return (status_only 503) = Return resp → status_code resp ≠ 401) ∧
  run.1.1 = Return (status_only 503) ∧
  session run.1.2 = session s ∧ world run.1.2 = [Return (status_only 200)] ∧
  all_wire_requests run.2 = [("GET", u, no_options)] ∧
  foldr (fun e n => refresh_steps e + n)%nat 0%nat run.2 = 0%nat.
Proof.
  intros s u run.
  assert (∀ resp, Return (status_only 503) = Return resp → status_code resp ≠ 401)
    as Hno by (by intros resp [= <-]).
  split; [reflexivity|]. split; [exact Hno|].
  exact (request_passes_through scripted 2 "GET" u no_options s
           (Return (status_only 503)) [Return (status_only 200)] eq_refl Hno).
Defined.

(** A 401, a refresh that hands out ["t2"], and the retry: the retry and
    the session afterwards carry ["t2"]. *)
Lemma request_retries_with_new_token_witness :
  let s := demo_state [Return (status_only 401); Return (fresh_token "t2");
                       Return (status_only 200)] in
  let u := "https://relik.example/api/v1/folders/7" in
  let refresh_url := "https://relik.example/auth/refresh" in
  let ses' := {| api_server_url := "https://relik.example";
                 headers := <["x-openrelik-access-token" := PStr "t2"]>
                              (headers demo_session) |} in
  scripted (world s) (session s) "GET" u no_options
    = (Return (status_only 401),
       [Return (fresh_token "t2"); Return (status_only 200)]) ∧
  status_code (status_only 401) = 401 ∧
  scripted [Return (fresh_token "t2"); Return (status_only 200)] (session s) "GET"
    refresh_url get_options
    = (Return (fresh_token "t2"), [Return (status_only 200)]) ∧
  ok (fresh_token "t2") = true ∧
  json_body (fresh_token "t2") = Some (PDict [("new_access_token", PStr "t2")]) ∧
  scripted [Return (status_only 200)] ses' "GET" u no_options
    = (Return (status_only 200), []) ∧
  all_wire_headers (request _ scripted 2 "GET" u no_options s).2
    = [headers demo_session; headers demo_session; headers ses'] ∧
  request _ scripted 2 "GET" u no_options s
    = (Return (status_only 200), Build_State ses' [],
       [Request "GET" u no_options
          [Wire "GET" u no_options (headers (session s)) (Return (status_only 401));
           Refresh
             [Request "GET" refresh_url get_options
                [Wire "GET" refresh_url get_options (headers (session s))
                   (Return (fresh_token "t2"))]
                (Return (fresh_token "t2"))]
             (Return true);
           Wire "GET" u no_options (headers ses') (Return (status_only 200))]
          (Return (status_only 200))]) ∧
  headers ses' !! "x-openrelik-access-token" = Some (PStr "t2") ∧
  headers ses' !! "x-openrelik-refresh-token"
    = headers (session s) !! "x-openrelik-refresh-token".
Proof.
  intros s u refresh_url ses'.
  split; [reflexivity|]. split; [reflexivity|]. split; [reflexivity|].
  split; [reflexivity|]. split; [reflexivity|]. split; [reflexivity|].
  split; [reflexivity|].
  exact (request_retries_with_new_token scripted 0 "GET" u no_options s
           (status_only 401)
           [Return (fresh_token "t2"); Return (status_only 200)]
           (fresh_token "t2") [Return (status_only 200)]
           [("new_access_token", PStr "t2")]
           (Return (status_only 200)) []
           eq_refl eq_refl eq_refl eq_refl eq_refl eq_refl).
Defined.

(** A refresh answered 200 with [{"detail": "ok"}]: the step reports
    success and the access token becomes [None]. *)
Lemma refresh_on_unexpected_body_witness :
  let s := demo_state [Return (with_json 200 (PDict [("detail", PStr "ok")]))] in
  let refreshed := with_json 200 (PDict [("detail", PStr "ok")]) in
  scripted (world s) (session s) "GET"
    (api_server_url (session s) +:+ "/auth/refresh") get_options
    = (Return refreshed, []) ∧
  ok refreshed = true ∧
  json_body refreshed = Some (PDict [("detail", PStr "ok")]) ∧
  Forall (fun kv : string * PyVal => kv.1 ≠ "new_access_token") [("detail", PStr "ok")] ∧
  (_refresh_token _ scripted 1 s).1.1 = Return true ∧
  headers (session (_refresh_token _ scripted 1 s).1.2) !! "x-openrelik-access-token"
    = Some PNone.
Proof.
  intros s refreshed.
  assert (Forall (fun kv : string * PyVal => kv.1 ≠ "new_access_token")
            [("detail", PStr "ok")]) as Hkeys by (by repeat constructor).
  split; [reflexivity|]. split; [reflexivity|]. split; [reflexivity|].
  split; [exact Hkeys|].
  exact (proj1 (refresh_on_unexpected_body scripted 0 s refreshed [] eq_refl eq_refl)
           [("detail", PStr "ok")] eq_refl Hkeys).
Defined.

(** Against a server on which every token has expired, a request makes its
    three exchanges and gets the 401 of the retry, with any stack of two
    calls or more. *)
Lemma request_needs_two_levels_witness :
  let s := demo_state tt in
  let u := "https://relik.example/api/v1/folders/7" in
  (∀ w ses o r w',
     expired_server w ses "GET" (api_server_url ses +:+ "/auth/refresh") o
       = (Return r, w') → status_code r ≠ 401) ∧
  (request unit expired_server 2 "GET" u no_options s).1.1 = Return (status_only 401) ∧
  length (all_wire_requests (request unit expired_server 2 "GET" u no_options s).2)
    = 3%nat ∧
  request unit expired_server 7 "GET" u no_options s
    = request unit expired_server 2 "GET" u no_options s ∧
  (length (all_wire_requests (request unit expired_server 7 "GET" u no_options s).2)
     ≤ 3)%nat.
Proof.
  intros s u.
  assert (∀ w ses o r w',
            expired_server w ses "GET" (api_server_url ses +:+ "/auth/refresh") o
              = (Return r, w') → status_code r ≠ 401) as Hrefresh.
  { intros w ses o r w'. unfold expired_server. rewrite decide_True by reflexivity.
    by intros [= <- _]. }
  split; [exact Hrefresh|]. split; [reflexivity|]. split; [reflexivity|].
  exact (request_needs_two_levels expired_server 5 "GET" u no_options s Hrefresh).
Defined.

(** The chunk of the three-byte file is the file. *)
Lemma upload_file_chunks_reassemble_witness :
  let s := demo_state [Return (status_only 200); Return (created 77)] in
  let data := ["001"; "002"; "003"]%byte in
  let checked := folder_check _ scripted 2 demo_client (Some 7) s in
  let run :=
    upload_file _ scripted 2 demo_client demo_fs demo_entropy "/cases/disk.img" (Some 7) s in
  demo_fs !! "/cases/disk.img" = Some data ∧
  checked = (Return (Some (status_only 200)), checked.1.2, checked.2) ∧
  folder_missing (Some (status_only 200)) = false ∧
  run = (Return (PInt 77), run.1.2, run.2) ∧
  (chunk_bytes <$> chunk_posts run.2) = [data] ∧
  concat (chunk_bytes <$> chunk_posts run.2) = data ∧
  Forall (fun kw => 1 ≤ Z.of_nat (length (chunk_bytes kw)) ≤ 1024000)
         (chunk_posts run.2).
Proof.
  intros s data checked run.
  split; [reflexivity|]. split; [reflexivity|]. split; [reflexivity|].
  split; [reflexivity|]. split; [reflexivity|].
  exact (upload_file_chunks_reassemble scripted 2 demo_client demo_fs demo_entropy
           "/cases/disk.img" (Some 7) data s (Some (status_only 200))
           checked.1.2 checked.2 (PInt 77) run.1.2 run.2
           eq_refl eq_refl eq_refl eq_refl).
Defined.

(** An upload with folder identifier [0]: one event, the chunk, which
    names folder ["0"]. *)
Lemma upload_file_without_folder_witness :
  let s := demo_state [Return (created 77)] in
  let data := ["001"; "002"; "003"]%byte in
  let log :=
    (upload_file _ scripted 2 demo_client demo_fs demo_entropy "/cases/disk.img"
       (Some 0) s).2 in
  demo_fs !! "/cases/disk.img" = Some data ∧
  truthy (Some 0) = false ∧
  (param "folder_id" <$> chunk_posts log) = [Some "0"] ∧
  length (chunk_posts log) = length log ∧
  Forall (fun kw => param "folder_id" kw = Some (str_opt (Some 0))) (chunk_posts log) ∧
  (Some 0 = None ∨ Some 0 = Some 0) ∧
  (str_opt (Some 0) = "None" ∨ str_opt (Some 0) = "0").
Proof.
  intros s data log.
  split; [reflexivity|]. split; [reflexivity|]. split; [reflexivity|].
  exact (upload_file_without_folder scripted 2 demo_client demo_fs demo_entropy
           "/cases/disk.img" (Some 0) data s eq_refl eq_refl).
Defined.

(** An empty file in a folder whose lookup is answered 201 with
    [{"id": 5}]: no chunk goes out and the upload yields the folder's 5. *)
Lemma upload_file_empty_witness :
  let s := demo_state [Return (created 5)] in
  let fs : FileSystem := {[ "/cases/empty.img" := [] ]} in
  let run :=
    upload_file _ scripted 2 demo_client fs demo_entropy "/cases/empty.img" (Some 7) s in
  fs !! "/cases/empty.img" = Some [] ∧
  run.1.1 = Return (PInt 5) ∧
  chunk_posts run.2 = [] ∧
  run =
    (let '(r0, s1, l1) := folder_check _ scripted 2 demo_client (Some 7) s in
     match r0 with
     | Raise e => (Raise e, s1, l1)
     | Return response =>
         (if folder_missing response then Return (PInt (-1))
          else file_id_value response, s1, l1)
     end) ∧
  (truthy (Some 7) = false → run = (Return (PInt (-1)), s, [])).
Proof.
  intros s fs run.
  split; [reflexivity|]. split; [reflexivity|].
  exact (upload_file_empty scripted 2 demo_client fs demo_entropy "/cases/empty.img"
           (Some 7) s eq_refl).
Defined.

(** A server that answers 500 to everything still gets the whole file, and
    the upload yields [-1]. *)
Lemma upload_file_posts_all_chunks_whatever_the_status_witness :
  let io := constant_server (status_only 500) in
  let data := ["001"; "002"; "003"]%byte in
  let run :=
    upload_file unit io 2 demo_client demo_fs demo_entropy "/cases/disk.img" None
      (demo_state tt) in
  (∀ w ses m u kw, ∃ resp w',
     io w ses m u kw = (Return resp, w') ∧ status_code resp ≠ 401) ∧
  demo_fs !! "/cases/disk.img" = Some data ∧
  truthy None = false ∧
  run.1.1 = Return (PInt (-1)) ∧
  Z.of_nat (length (chunk_posts run.2))
    = ceil_div (Z.of_nat (length data)) chunk_size ∧
  (∃ v, run.1.1 = file_id_value v) ∧
  ((∀ w ses m u kw resp w',
      io w ses m u kw = (Return resp, w') → status_code resp ≠ 201) →
   run.1.1 = Return (PInt (-1))).
Proof.
  intros io data run.
  assert (∀ w ses m u kw, ∃ resp w',
            io w ses m u kw = (Return resp, w') ∧ status_code resp ≠ 401) as Haccept.
  { apply constant_server_accepting. discriminate. }
  split; [exact Haccept|]. split; [reflexivity|]. split; [reflexivity|].
  split; [reflexivity|].
  exact (upload_file_posts_all_chunks_whatever_the_status io 1 demo_client demo_fs
           demo_entropy "/cases/disk.img" None data (demo_state tt)
           Haccept eq_refl eq_refl).
Defined.

(** A folder lookup answered 403: [folder_exists] says no, and the upload
    into that folder goes on and yields 77. *)
Lemma folder_exists_and_upload_check_witness :
  let s := demo_state [Return (status_only 403); Return (created 77)] in
  let r := status_only 403 in
  let got := session_get _ scripted 2 (base_url demo_client +:+ "/folders/" +:+ str 7) s in
  7 ≠ 0 ∧
  got = (Return r, got.1.2, got.2) ∧
  (folder_exists _ scripted 2 demo_client 7 s).1.1 = Return false ∧
  (upload_file _ scripted 2 demo_client demo_fs demo_entropy "/cases/disk.img" (Some 7)
     s).1.1 = Return (PInt 77) ∧
  folder_exists _ scripted 2 demo_client 7 s
    = (Return (status_code r =? 200), got.1.2, got.2) ∧
  folder_check _ scripted 2 demo_client (Some 7) s = (Return (Some r), got.1.2, got.2) ∧
  (folder_missing (Some r) = true ↔ status_code r = 404) ∧
  (status_code r ≠ 200 → status_code r ≠ 404 →
   (folder_exists _ scripted 2 demo_client 7 s).1.1 = Return false ∧
   ∀ fs rnd file_path data,
     fs !! file_path = Some data →
     upload_file _ scripted 2 demo_client fs rnd file_path (Some 7) s =
     let '(rl, s2, l2) :=
       upload_loop _ scripted (S (length data)) 2 demo_client rnd (path_name file_path)
         (Some 7)
         (math_ceil (int_true_div (Z.of_nat (length data)) chunk_size))
         data 0 (Some r) got.1.2 in
     match rl with
     | Raise e => (Raise e, s2, got.2 ++ l2)
     | Return response' => (file_id_value response', s2, got.2 ++ l2)
     end).
Proof.
  intros s r got.
  assert (7 ≠ 0) as Hne by lia.
  split; [exact Hne|]. split; [reflexivity|]. split; [reflexivity|].
  split; [reflexivity|].
  exact (folder_exists_and_upload_check scripted 2 demo_client 7 s r got.1.2 got.2
           Hne eq_refl).
Defined.

(** A chunk answered 401, a refresh, and the chunk again: one chunk
    [POST] by the client, two on the wire. *)
Lemma upload_file_wire_posts_witness :
  let s := demo_state [Return (status_only 401); Return (fresh_token "t2");
                       Return (created 77)] in
  let data := ["001"; "002"; "003"]%byte in
  let log :=
    (upload_file _ scripted 2 demo_client demo_fs demo_entropy "/cases/disk.img" None
       s).2 in
  demo_fs !! "/cases/disk.img" = Some data ∧
  length (chunk_posts log) = 1%nat ∧
  length (post_exchanges log) = 2%nat ∧
  ∃ ns : list nat,
    length ns = length (chunk_posts log) ∧
    Forall (fun n => 1 ≤ n ≤ 2)%nat ns ∧
    post_exchanges log
      = concat (zip_with (fun n kw =>
                            replicate n
                              ("POST", base_url demo_client +:+ "/files/upload", kw))
                  ns (chunk_posts log)).
Proof.
  intros s data log.
  split; [reflexivity|]. split; [reflexivity|]. split; [reflexivity|].
  exact (upload_file_wire_posts scripted 2 demo_client demo_entropy None demo_fs
           "/cases/disk.img" data s eq_refl).
Defined.

